(** * SecureLens: the client-side session, analysis and chat state machines

    A shallow embedding of the stateful logic of [src/App.tsx],
    [src/components/ChatWidget.tsx] and [src/components/LoginModal.tsx].

    React state is a record per component; a handler is a function on that
    record.  An [async] handler is cut at its single [await]: the part that
    runs synchronously when the handler is called ([_call]) and the
    continuation that runs when the gateway promise settles ([_resume]).
    State setters given an updater ([setX(prev => ...)]) read the state at the
    time the continuation runs, which is what the functions below take as
    their state argument. *)

From Stdlib Require Import ZArith NArith List Bool Ascii String DecimalString.
From stdpp Require Import base option list gmap.

Local Open Scope N_scope.

(** ** JavaScript values used by the handlers *)

Module JS.

(** A JavaScript string is a sequence of UTF-16 code units. *)
Abbreviation jsstring := (list N).

(** A string literal of the source; all literals of the handlers are ASCII. *)
Definition lit (s : string) : jsstring :=
  map N_of_ascii (list_ascii_of_string s).

(** [ToBoolean] on a string: only the empty string is falsy. *)
Definition truthy_str (s : jsstring) : bool :=
  match s with [] => false | _ :: _ => true end.

(** [ToBoolean] on [string | null] (the result of [Storage.getItem]). *)
Definition truthy_ostr (o : option jsstring) : bool :=
  match o with Some s => truthy_str s | None => false end.

(** [ToBoolean] on [boolean | undefined] (an optional boolean field). *)
Definition truthy (o : option bool) : bool :=
  match o with Some true => true | _ => false end.

(** ECMAScript [WhiteSpace] and [LineTerminator] code points, the ones that
    [String.prototype.trim] strips; all of them are single code units. *)
Definition isWhiteSpace (c : N) : bool :=
  existsb (N.eqb c)
    [9; 10; 11; 12; 13; 32; 160; 5760; 8232; 8233; 8239; 8287; 12288; 65279]
  || ((8192 <=? c) && (c <=? 8202)).

Fixpoint trimStart (s : jsstring) : jsstring :=
  match s with
  | [] => []
  | c :: s' => if isWhiteSpace c then trimStart s' else s
  end.

Definition trimEnd (s : jsstring) : jsstring := rev (trimStart (rev s)).

Definition trim (s : jsstring) : jsstring := trimEnd (trimStart s).

(** Empty or made of white space only. *)
Definition blank (s : jsstring) : bool := forallb isWhiteSpace s.

(** [s.substring(0, n)]. *)
Definition substring0 (n : nat) (s : jsstring) : jsstring := take n s.

(** [Number.prototype.toString] on a non-negative integer below 2^53
    ([Date.now()], [Array.length]): its decimal digits. *)
Definition number_toString (n : N) : jsstring :=
  lit (NilZero.string_of_uint (N.to_uint n)).

(** [s.split(sep)] for a one-code-unit separator. *)
Fixpoint split_aux (sep : N) (cur : jsstring) (s : jsstring) : list jsstring :=
  match s with
  | [] => [rev cur]
  | c :: s' =>
      if N.eqb c sep then rev cur :: split_aux sep [] s'
      else split_aux sep (c :: cur) s'
  end.

Definition split (sep : N) (s : jsstring) : list jsstring := split_aux sep [] s.

(** [s.replace(/a/g, b)] for single code units [a] and [b]. *)
Definition replace_all (a b : N) (s : jsstring) : jsstring :=
  map (fun c => if N.eqb c a then b else c) s.

(** A settled promise. *)
Inductive settled (A : Type) : Type :=
| Fulfilled (a : A)
| Rejected.
Arguments Fulfilled {A} a.
Arguments Rejected {A}.

(** How a block of statements ends: normally, or by throwing. *)
Inductive completion (S : Type) : Type :=
| Normal (s : S)
| Throw (s : S).
Arguments Normal {S} s.
Arguments Throw {S} s.

Definition completed {S} (c : completion S) : S :=
  match c with Normal s | Throw s => s end.

(** [try { body } catch { handler } finally { fin }] on a state [S]; a
    handler or a [finally] block that only calls state setters cannot throw,
    so they are plain functions. *)
Definition try_catch_finally {S} (body : S -> completion S)
    (handler : S -> S) (fin : S -> S) (s : S) : completion S :=
  match body s with
  | Normal s' => Normal (fin s')
  | Throw s' => Normal (fin (handler s'))
  end.

(** [try { body } catch { handler }]. *)
Definition try_catch {S} (body : S -> completion S) (handler : S -> S) (s : S)
    : completion S :=
  try_catch_finally body handler (fun s' => s') s.

(** [a || b] on [string | null]. *)
Definition or_ostr (a b : option jsstring) : option jsstring :=
  if truthy_ostr a then a else b.

End JS.

Import JS.

(** ** The analysis result shared by the analysis view and the chat widget *)

(** Modelled from the spec: [AnalysisResult] is declared in [types.ts], which
    is not among the sources.  The handlers read only its risk level and the
    length of its red-flag list; [obj_ref] is the identity of the JavaScript
    object, which is what [===] and the dependency list of [useEffect]
    compare. *)
Record AnalysisResult : Type := {
  obj_ref : N;
  riskLevel : jsstring;
  redFlags : list jsstring
}.

(** [Object.is] on [AnalysisResult | null]. *)
Definition same_result (a b : option AnalysisResult) : bool :=
  match a, b with
  | None, None => true
  | Some x, Some y => N.eqb (obj_ref x) (obj_ref y)
  | _, _ => false
  end.

(** ** ChatWidget.tsx *)

Module Chat.

Inductive Role : Type := user | model.

Inductive FeedbackType : Type := like | dislike.

(** [interface Message]; an absent optional field is [None]. *)
Record Message : Type := {
  role : Role;
  text : jsstring;
  liked : option bool;
  disliked : option bool
}.

(** An object literal [{ role, text }]. *)
Definition mkMessage (r : Role) (t : jsstring) : Message :=
  {| role := r; text := t; liked := None; disliked := None |}.

(** The component's state hooks. *)
Record ChatState : Type := {
  isOpen : bool;
  messages : list Message;
  input : jsstring;
  isLoading : bool
}.

Definition setMessages (f : list Message -> list Message) (st : ChatState) : ChatState :=
  {| isOpen := isOpen st; messages := f (messages st); input := input st;
     isLoading := isLoading st |}.

Definition setInput (s : jsstring) (st : ChatState) : ChatState :=
  {| isOpen := isOpen st; messages := messages st; input := s;
     isLoading := isLoading st |}.

Definition setIsLoading (b : bool) (st : ChatState) : ChatState :=
  {| isOpen := isOpen st; messages := messages st; input := input st;
     isLoading := b |}.

(** [useState] initial values. *)
Definition initial : ChatState :=
  {| isOpen := false; messages := []; input := []; isLoading := false |}.

(** The arguments of one [sendChatResponse] call. *)
Record ChatRequest : Type := {
  conversationHistory : list (Role * jsstring);
  newText : jsstring;
  context : option AnalysisResult
}.

Definition greeting (analysisResult : option AnalysisResult) : Message :=
  match analysisResult with
  | Some r =>
      mkMessage model
        (lit "I've analyzed this content (Risk: " ++ riskLevel r ++ lit "). Found "
           ++ number_toString (N.of_nat (length (redFlags r)))
           ++ lit " red flags. How can I help?")
  | None =>
      mkMessage model
        (lit "Hi! I'm SecureLens AI. Ask me anything about online safety or scam detection.")
  end.

(** The body of the effect [useEffect(..., [analysisResult])]. *)
Definition resetEffect (analysisResult : option AnalysisResult) (st : ChatState) : ChatState :=
  setMessages (fun _ => [greeting analysisResult]) st.

(** First render: the effect always runs. *)
Definition mount (analysisResult : option AnalysisResult) : ChatState :=
  resetEffect analysisResult initial.

(** A later render with a new prop: the effect runs when the dependency is
    not [Object.is]-equal to the one of the previous render. *)
Definition rerender (prevResult analysisResult : option AnalysisResult)
    (st : ChatState) : ChatState :=
  if same_result prevResult analysisResult then st
  else resetEffect analysisResult st.

Definition fallbackText : jsstring :=
  lit "Issue detected. Please rephrase your question.".

(** [handleSend] up to its [await]: the new state, and the gateway call it
    makes, if any. *)
Definition handleSend_call (analysisResult : option AnalysisResult)
    (textToSend : jsstring) (st : ChatState) : ChatState * option ChatRequest :=
  if negb (truthy_str (trim textToSend)) || isLoading st then (st, None)
  else
    let userMessage := trim textToSend in
    let st1 := setInput [] st in
    let st2 := setIsLoading true st1 in
    let st3 := setMessages (fun prev => prev ++ [mkMessage user userMessage]) st2 in
    (st3,
     Some {| conversationHistory := map (fun m => (role m, text m)) (messages st);
             newText := userMessage;
             context := analysisResult |}).

(** [handleSend] from its [await] on, once the gateway promise has settled. *)
Definition handleSend_resume (response : settled jsstring) (st : ChatState)
    : completion ChatState :=
  try_catch_finally
    (fun s =>
       match response with
       | Fulfilled responseText =>
           Normal (setMessages (fun prev => prev ++ [mkMessage model responseText]) s)
       | Rejected => Throw s
       end)
    (setMessages (fun prev => prev ++ [mkMessage model fallbackText]))
    (setIsLoading false)
    st.

Definition handleFeedback (index : Z) (type : FeedbackType) (st : ChatState) : ChatState :=
  setMessages
    (imap (fun i msg =>
       if Z.eqb (Z.of_nat i) index then
         {| role := role msg;
            text := text msg;
            liked := Some (match type with
                           | like => negb (truthy (liked msg))
                           | dislike => false
                           end);
            disliked := Some (match type with
                              | dislike => negb (truthy (disliked msg))
                              | like => false
                              end) |}
       else msg))
    st.

(** What the thumbs render: a message is shown liked (disliked) when the
    field is truthy. *)
Definition is_liked (m : Message) : bool := truthy (liked m).
Definition is_disliked (m : Message) : bool := truthy (disliked m).
Definition unset (m : Message) : bool := negb (is_liked m) && negb (is_disliked m).

(** The events of a chat session: a send reaching [handleSend], the
    settling of the pending gateway promise, a thumb click, and a render
    with a new [analysisResult] prop. *)
Inductive ChatEvent : Type :=
| Send (textToSend : jsstring)
| Settle (response : settled jsstring)
| Feedback (index : Z) (type : FeedbackType)
| Props (analysisResult : option AnalysisResult).

(** The prop of the last render, the component state, and the gateway calls
    made so far. *)
Record ChatWorld : Type := {
  props : option AnalysisResult;
  chat : ChatState;
  gateway : list ChatRequest
}.

Definition chat_step (w : ChatWorld) (e : ChatEvent) : ChatWorld :=
  match e with
  | Send t =>
      let '(st, rq) := handleSend_call (props w) t (chat w) in
      {| props := props w; chat := st;
         gateway := gateway w ++ match rq with Some r => [r] | None => [] end |}
  | Settle r =>
      {| props := props w; chat := completed (handleSend_resume r (chat w));
         gateway := gateway w |}
  | Feedback i t =>
      {| props := props w; chat := handleFeedback i t (chat w);
         gateway := gateway w |}
  | Props r =>
      {| props := r; chat := rerender (props w) r (chat w);
         gateway := gateway w |}
  end.

Definition chat_mounted (analysisResult : option AnalysisResult) : ChatWorld :=
  {| props := analysisResult; chat := mount analysisResult; gateway := [] |}.

Definition chat_run (analysisResult : option AnalysisResult) (es : list ChatEvent)
    : ChatWorld :=
  fold_left chat_step es (chat_mounted analysisResult).

End Chat.

(** Modelled from the spec: [UserProfile] is declared in [types.ts], which is
    not among the sources: [{ name, email, avatar, joinedDate }].  A field
    filled from an untyped JSON payload is [None] when the payload lacks it
    ([undefined]). *)
Record UserProfile : Type := {
  name : option jsstring;
  email : option jsstring;
  avatar : option jsstring;
  joinedDate : N
}.

(** The one key both [Storage] objects are used with. *)
Definition securelens_user : jsstring := lit "securelens_user".

(** ** App.tsx *)

Module App.

(** Modelled from the spec: [AnalysisHistoryItem] is declared in [types.ts];
    its fields are the ones [handleAnalyze] fills in. *)
Record AnalysisHistoryItem : Type := {
  id : jsstring;
  timestamp : N;
  snippet : jsstring;
  item_result : AnalysisResult
}.

(** The component's state hooks (the splash-screen and about-dialog flags,
    which no handler below touches, are left out). *)
Record AppState : Type := {
  result : option AnalysisResult;
  isAnalyzing : bool;
  error : option jsstring;
  history : list AnalysisHistoryItem;
  isSidebarOpen : bool;
  user : option UserProfile;
  isLoginOpen : bool;
  isProfileDropdownOpen : bool
}.

Definition setResult (r : option AnalysisResult) (st : AppState) : AppState :=
  {| result := r; isAnalyzing := isAnalyzing st; error := error st;
     history := history st; isSidebarOpen := isSidebarOpen st; user := user st;
     isLoginOpen := isLoginOpen st;
     isProfileDropdownOpen := isProfileDropdownOpen st |}.

Definition setIsAnalyzing (b : bool) (st : AppState) : AppState :=
  {| result := result st; isAnalyzing := b; error := error st;
     history := history st; isSidebarOpen := isSidebarOpen st; user := user st;
     isLoginOpen := isLoginOpen st;
     isProfileDropdownOpen := isProfileDropdownOpen st |}.

Definition setError (e : option jsstring) (st : AppState) : AppState :=
  {| result := result st; isAnalyzing := isAnalyzing st; error := e;
     history := history st; isSidebarOpen := isSidebarOpen st; user := user st;
     isLoginOpen := isLoginOpen st;
     isProfileDropdownOpen := isProfileDropdownOpen st |}.

Definition setHistory (f : list AnalysisHistoryItem -> list AnalysisHistoryItem)
    (st : AppState) : AppState :=
  {| result := result st; isAnalyzing := isAnalyzing st; error := error st;
     history := f (history st); isSidebarOpen := isSidebarOpen st;
     user := user st; isLoginOpen := isLoginOpen st;
     isProfileDropdownOpen := isProfileDropdownOpen st |}.

Definition setIsSidebarOpen (b : bool) (st : AppState) : AppState :=
  {| result := result st; isAnalyzing := isAnalyzing st; error := error st;
     history := history st; isSidebarOpen := b; user := user st;
     isLoginOpen := isLoginOpen st;
     isProfileDropdownOpen := isProfileDropdownOpen st |}.

Definition setUser (u : option UserProfile) (st : AppState) : AppState :=
  {| result := result st; isAnalyzing := isAnalyzing st; error := error st;
     history := history st; isSidebarOpen := isSidebarOpen st; user := u;
     isLoginOpen := isLoginOpen st;
     isProfileDropdownOpen := isProfileDropdownOpen st |}.

Definition setIsLoginOpen (b : bool) (st : AppState) : AppState :=
  {| result := result st; isAnalyzing := isAnalyzing st; error := error st;
     history := history st; isSidebarOpen := isSidebarOpen st; user := user st;
     isLoginOpen := b;
     isProfileDropdownOpen := isProfileDropdownOpen st |}.

Definition setIsProfileDropdownOpen (b : bool) (st : AppState) : AppState :=
  {| result := result st; isAnalyzing := isAnalyzing st; error := error st;
     history := history st; isSidebarOpen := isSidebarOpen st; user := user st;
     isLoginOpen := isLoginOpen st;
     isProfileDropdownOpen := b |}.

(** [useState] initial values. *)
Definition initial : AppState :=
  {| result := None; isAnalyzing := false; error := None; history := [];
     isSidebarOpen := true; user := None; isLoginOpen := false;
     isProfileDropdownOpen := false |}.

(** What the error banner shows once the splash screen is gone: the banner
    is part of the form view, [{!result && ( ... {error && <p>{error}</p>} )}],
    which is rendered only while there is no current result. *)
Definition banner (st : AppState) : option jsstring :=
  match result st with
  | Some _ => None
  | None => if truthy_ostr (error st) then error st else None
  end.

Section Restore.

(** [JSON.parse] on a stored profile: [None] when it throws. *)
Variable JSON_parse : jsstring -> option UserProfile.

(** The mount effect, as far as it sets state: the session restore and the
    first [handleResize].  It returns the lines written with
    [console.error]. *)
Definition mountEffect (localStorage sessionStorage : gmap jsstring jsstring)
    (innerWidth : N) (st : AppState) : AppState * list jsstring :=
  let storedUser :=
    or_ostr (localStorage !! securelens_user) (sessionStorage !! securelens_user) in
  let '(st1, console) :=
    match storedUser with
    | Some s =>
        if truthy_str s then
          match JSON_parse s with
          | Some u => (setUser (Some u) st, [])
          | None => (st, [lit "Failed to parse user session"])
          end
        else (st, [])
    | None => (st, [])
    end in
  (setIsSidebarOpen (negb (innerWidth <? 1024)) st1, console).

(** [restore()]: the user after the mount effect on a fresh component. *)
Definition restore (localStorage sessionStorage : gmap jsstring jsstring)
    (innerWidth : N) : option UserProfile :=
  user (fst (mountEffect localStorage sessionStorage innerWidth initial)).

End Restore.

Definition handleLogin (loggedInUser : UserProfile) (st : AppState) : AppState :=
  setUser (Some loggedInUser) st.

(** The arguments of one [analyzeContent] call. *)
Record AnalyzeRequest : Type := {
  req_text : jsstring;
  req_image : option jsstring
}.

Definition analysisFailed : jsstring :=
  lit "Analysis failed. Please try again later or check your connection.".

(** [handleAnalyze] up to its [await]: the new state and the gateway call. *)
Definition handleAnalyze_call (text : jsstring) (imageBase64 : option jsstring)
    (st : AppState) : AppState * AnalyzeRequest :=
  (setError None (setIsAnalyzing true st),
   {| req_text := text; req_image := imageBase64 |}).

(** [handleAnalyze] from its [await] on.  [now_id] and [now_ts] are the two
    readings of [Date.now()]; scrolling the container sets no state. *)
Definition handleAnalyze_resume (text : jsstring) (now_id now_ts : N)
    (response : settled AnalysisResult) (st : AppState) : completion AppState :=
  try_catch_finally
    (fun s =>
       match response with
       | Fulfilled data =>
           let s1 := setResult (Some data) s in
           let newItem :=
             {| id := number_toString now_id;
                timestamp := now_ts;
                snippet :=
                  if truthy_str text then
                    if (50 <? length text)%nat then substring0 50 text ++ lit "..."
                    else text
                  else lit "Image Analysis";
                item_result := data |} in
           Normal (setHistory (fun prev => newItem :: prev) s1)
       | Rejected => Throw s
       end)
    (setError (Some analysisFailed))
    (setIsAnalyzing false)
    st.

Definition resetAnalysis (st : AppState) : AppState :=
  setError None (setResult None st).

Definition deleteHistoryItem (id0 : jsstring) (st : AppState) : AppState :=
  setHistory (fun prev => filter (fun item => id item <> id0) prev) st.

(** The [Clear] button: [setHistory([])]. *)
Definition clearHistory (st : AppState) : AppState :=
  setHistory (fun _ => []) st.

(** The events of the analysis surface: a submission reaching
    [handleAnalyze], and the settling of a pending gateway promise. *)
Inductive AppEvent : Type :=
| Submit (text : jsstring) (imageBase64 : option jsstring)
| Settled (text : jsstring) (now_id now_ts : N) (response : settled AnalysisResult).

(** The component state together with the gateway calls made so far. *)
Record AppWorld : Type := {
  app : AppState;
  gateway : list AnalyzeRequest
}.

Definition app_step (w : AppWorld) (e : AppEvent) : AppWorld :=
  match e with
  | Submit text img =>
      let '(st, rq) := handleAnalyze_call text img (app w) in
      {| app := st; gateway := gateway w ++ [rq] |}
  | Settled text i t r =>
      {| app := completed (handleAnalyze_resume text i t r (app w));
         gateway := gateway w |}
  end.

Definition app_run (es : list AppEvent) : AppWorld :=
  fold_left app_step es {| app := initial; gateway := [] |}.

End App.

(** ** LoginModal.tsx *)

Module Login.

(** The component's state hooks (the form fields, which the federated
    sign-in does not read, are left out). *)
Record LoginState : Type := {
  isLogin : bool;
  loading : bool;
  showPassword : bool;
  rememberMe : bool;
  error : option jsstring
}.

Definition setLoading (b : bool) (st : LoginState) : LoginState :=
  {| isLogin := isLogin st; loading := b; showPassword := showPassword st;
     rememberMe := rememberMe st; error := error st |}.

Definition setError (e : option jsstring) (st : LoginState) : LoginState :=
  {| isLogin := isLogin st; loading := loading st; showPassword := showPassword st;
     rememberMe := rememberMe st; error := e |}.

(** [useState] initial values. *)
Definition initial : LoginState :=
  {| isLogin := true; loading := false; showPassword := false;
     rememberMe := true; error := None |}.

(** What the modal shows above the form.  The component renders nothing
    while its [isOpen] prop is false ([if (!isOpen) return null]); when open
    it shows the error, if any: [{error && <div>{error}</div>}]. *)
Definition banner (isOpen : bool) (st : LoginState) : option jsstring :=
  if isOpen then
    if truthy_ostr (error st) then error st else None
  else None.

(** Everything the sign-in callback can touch: the two stores, the parent
    component (through [onLogin] and [onClose]) and the modal itself. *)
Record World : Type := {
  localStorage : gmap jsstring jsstring;
  sessionStorage : gmap jsstring jsstring;
  parent : App.AppState;
  modal : LoginState
}.

(** [<LoginModal isOpen={isLoginOpen} ... />]: the error the user sees. *)
Definition shown (w : World) : option jsstring :=
  banner (App.isLoginOpen (parent w)) (modal w).

Definition onModal (f : LoginState -> LoginState) (w : World) : World :=
  {| localStorage := localStorage w; sessionStorage := sessionStorage w;
     parent := parent w; modal := f (modal w) |}.

Definition onParent (f : App.AppState -> App.AppState) (w : World) : World :=
  {| localStorage := localStorage w; sessionStorage := sessionStorage w;
     parent := f (parent w); modal := modal w |}.

Definition localStorage_setItem (k v : jsstring) (w : World) : World :=
  {| localStorage := <[k := v]> (localStorage w);
     sessionStorage := sessionStorage w; parent := parent w; modal := modal w |}.

Definition sessionStorage_setItem (k v : jsstring) (w : World) : World :=
  {| localStorage := localStorage w;
     sessionStorage := <[k := v]> (sessionStorage w);
     parent := parent w; modal := modal w |}.

(** The fields read from the decoded credential payload. *)
Record Payload : Type := {
  payload_name : option jsstring;
  payload_email : option jsstring;
  payload_picture : option jsstring
}.

Definition googleFailed : jsstring :=
  lit "Google authentication failed. Please try again.".

Section Codec.

(** [JSON.parse(decodeURIComponent(atob(base64)...))] followed by the field
    reads: [None] when any of these throws ([atob] on a string that is not
    base64, a malformed URI sequence, a JSON syntax error, a [null]
    payload). *)
Variable decodePayload : jsstring -> option Payload.

Variable JSON_stringify : UserProfile -> jsstring.

(** The decoding steps of the [try] block: the middle segment of the
    credential, made plain base64 and decoded.  [None] when a step throws;
    a credential without a second segment makes [split('.')[1]] undefined,
    and calling [replace] on it throws. *)
Definition decodeCredential (credential : jsstring) : option Payload :=
  match split 46 credential !! 1%nat with
  | None => None
  | Some base64Url =>
      let base64 := replace_all 95 47 (replace_all 45 43 base64Url) in
      decodePayload base64
  end.

(** The [try] block of [handleGoogleResponse]. *)
Definition googleTry (credential : jsstring) (now : N) (w : World) : completion World :=
  match decodeCredential credential with
  | None => Throw w
  | Some payload =>
      let newUser :=
        {| name := payload_name payload;
           email := payload_email payload;
           avatar := payload_picture payload;
           joinedDate := now |} in
      let w1 :=
        if rememberMe (modal w)
        then localStorage_setItem securelens_user (JSON_stringify newUser) w
        else sessionStorage_setItem securelens_user (JSON_stringify newUser) w in
      let w2 := onParent (App.handleLogin newUser) w1 in
      let w3 := onModal (setLoading false) w2 in
      Normal (onParent (App.setIsLoginOpen false) w3)
  end.

Definition handleGoogleResponse (credential : jsstring) (now : N) (w : World)
    : completion World :=
  let w1 := onModal (setLoading true) w in
  let w2 := onModal (setError None) w1 in
  try_catch (googleTry credential now)
    (fun w' => onModal (setLoading false) (onModal (setError (Some googleFailed)) w'))
    w2.

End Codec.

End Login.

(** ** App.tsx: history navigation, layout and sign-out *)

Module Navigation.

Import App.

(** [handleResize]: the sidebar is open exactly on wide windows. *)
Definition handleResize (innerWidth : N) (st : AppState) : AppState :=
  if innerWidth <? 1024 then setIsSidebarOpen false st
  else setIsSidebarOpen true st.

(** [loadHistoryItem]; scrolling the container sets no state. *)
Definition loadHistoryItem (innerWidth : N) (item : AnalysisHistoryItem)
    (st : AppState) : AppState :=
  let st1 := setResult (Some (item_result item)) st in
  let st2 := setError None st1 in
  if innerWidth <? 1024 then setIsSidebarOpen false st2 else st2.

(** The entry the sidebar highlights: [result === item.result]. *)
Definition highlighted (st : AppState) (item : AnalysisHistoryItem) : bool :=
  same_result (result st) (Some (item_result item)).

Definition getRiskColor (level : jsstring) : jsstring :=
  if decide (level = lit "High Risk") then lit "text-red-700 bg-red-50 border-red-200"
  else if decide (level = lit "Medium Risk") then
    lit "text-orange-700 bg-orange-50 border-orange-200"
  else if decide (level = lit "Low Risk") then
    lit "text-yellow-700 bg-yellow-50 border-yellow-200"
  else if decide (level = lit "Safe") then lit "text-green-700 bg-green-50 border-green-200"
  else lit "text-slate-700 bg-slate-50 border-slate-200".

(** [<ChatWidget analysisResult={result} />]: what a state change of the
    page does to the chat widget it renders. *)
Definition renderChat (before after : AppState) (c : Chat.ChatState) : Chat.ChatState :=
  Chat.rerender (result before) (result after) c.

(** [handleLogout], on the stores and the page state. *)
Definition handleLogout (w : Login.World) : Login.World :=
  let w1 := Login.onParent (setUser None) w in
  let w2 :=
    {| Login.localStorage := delete securelens_user (Login.localStorage w1);
       Login.sessionStorage := Login.sessionStorage w1;
       Login.parent := Login.parent w1; Login.modal := Login.modal w1 |} in
  let w3 :=
    {| Login.localStorage := Login.localStorage w2;
       Login.sessionStorage := delete securelens_user (Login.sessionStorage w2);
       Login.parent := Login.parent w2; Login.modal := Login.modal w2 |} in
  Login.onParent (setIsProfileDropdownOpen false) w3.

End Navigation.

(** ** LoginModal.tsx: the password form *)

(** The [formData] state of the modal. *)
Module FormData.

Record t : Type := {
  name : jsstring;
  email : jsstring;
  confirmEmail : jsstring;
  password : jsstring
}.

End FormData.

Module SignIn.

Import Login.

Definition emailsDoNotMatch : jsstring := lit "Emails do not match.".

(** What the timer callback of [handleSubmit] closes over. *)
Record Scheduled : Type := {
  sch_isLogin : bool;
  sch_formData : FormData.t;
  sch_rememberMe : bool
}.

(** [handleSubmit] up to [setTimeout]: the new modal state and the callback
    it schedules, if any. *)
Definition handleSubmit_call (formData : FormData.t) (st : LoginState)
    : LoginState * option Scheduled :=
  let st1 := setError None st in
  if negb (isLogin st)
     && negb (bool_decide (FormData.email formData = FormData.confirmEmail formData))
  then (setError (Some emailsDoNotMatch) st1, None)
  else
    (setLoading true st1,
     Some {| sch_isLogin := isLogin st; sch_formData := formData;
             sch_rememberMe := rememberMe st |}).

Section Builtins.

(** [String.prototype.toUpperCase]. *)
Variable toUpperCase : jsstring -> jsstring.

(** [encodeURIComponent]: [None] when it throws (a lone surrogate). *)
Variable encodeURIComponent : jsstring -> option jsstring.

Variable JSON_stringify : UserProfile -> jsstring.

(** The [name] constant of the timer callback. *)
Definition displayName (c : Scheduled) : jsstring :=
  let formData := sch_formData c in
  if sch_isLogin c then
    if truthy_str (FormData.name formData) then FormData.name formData
    else default [] (split 64 (FormData.email formData) !! 0%nat)
  else FormData.name formData.

(** The timer callback of [handleSubmit], 1200 ms later. *)
Definition handleSubmit_timeout (c : Scheduled) (now : N) (w : World)
    : completion World :=
  let name := displayName c in
  match encodeURIComponent name with
  | None => Throw w
  | Some encoded =>
      let newUser :=
        {| name := Some (toUpperCase (take 1 name) ++ drop 1 name);
           email := Some (FormData.email (sch_formData c));
           avatar := Some (lit "https://ui-avatars.com/api/?name=" ++ encoded
                             ++ lit "&background=2563eb&color=fff");
           joinedDate := now |} in
      let w1 :=
        if sch_rememberMe c
        then localStorage_setItem securelens_user (JSON_stringify newUser) w
        else sessionStorage_setItem securelens_user (JSON_stringify newUser) w in
      let w2 := onParent (App.handleLogin newUser) w1 in
      let w3 := onModal (setLoading false) w2 in
      Normal (onParent (App.setIsLoginOpen false) w3)
  end.

End Builtins.

(** The link under the form: [setIsLogin(!isLogin); setError(null)]. *)
Definition switchMode (st : LoginState) : LoginState :=
  {| isLogin := negb (isLogin st); loading := loading st;
     showPassword := showPassword st; rememberMe := rememberMe st;
     error := None |}.

End SignIn.

(** * Properties *)

(** ** Trimming *)

Module JSFacts.

Lemma trimStart_nil_iff (s : jsstring) : trimStart s = [] <-> blank s = true.
Proof.
  unfold blank. induction s as [|c s IH]; simpl; [tauto|].
  destruct (isWhiteSpace c); simpl; [exact IH|].
  split; discriminate.
Qed.

Lemma trimStart_blank (s : jsstring) : blank s = true -> trimStart s = [].
Proof. apply trimStart_nil_iff. Qed.

Lemma trimStart_suffix (s : jsstring) : exists p, s = p ++ trimStart s /\ blank p = true.
Proof.
  induction s as [|c s [p [Hp Hb]]]; simpl.
  - exists []. split; reflexivity.
  - destruct (isWhiteSpace c) eqn:Hc.
    + exists (c :: p). split; [simpl; congruence|]. unfold blank in *. simpl.
      rewrite Hc. exact Hb.
    + exists []. split; reflexivity.
Qed.

Lemma blank_app (a b : jsstring) : blank (a ++ b) = blank a && blank b.
Proof. unfold blank. apply forallb_app. Qed.

Lemma blank_rev (s : jsstring) : blank (rev s) = blank s.
Proof.
  induction s as [|c s IH]; simpl; [reflexivity|].
  rewrite blank_app, IH. unfold blank. simpl.
  rewrite andb_true_r. apply andb_comm.
Qed.

(** [trim] yields the empty string exactly on blank input. *)
Lemma trim_nil_iff (s : jsstring) : trim s = [] <-> blank s = true.
Proof.
  unfold trim, trimEnd. split.
  - intros H.
    assert (Hr : trimStart (rev (trimStart s)) = []).
    { apply (f_equal (@rev N)) in H. rewrite rev_involutive in H. exact H. }
    apply trimStart_nil_iff in Hr. rewrite blank_rev in Hr.
    destruct (trimStart_suffix s) as [p [Hp Hb]].
    rewrite Hp, blank_app, Hb, Hr. reflexivity.
  - intros H. rewrite (trimStart_blank s H). reflexivity.
Qed.

Lemma truthy_trim (s : jsstring) : truthy_str (trim s) = negb (blank s).
Proof.
  destruct (blank s) eqn:Hb.
  - apply trim_nil_iff in Hb. rewrite Hb. reflexivity.
  - destruct (trim s) eqn:Ht; [|reflexivity].
    apply trim_nil_iff in Ht. congruence.
Qed.

End JSFacts.

(** ** The chat widget *)

Module ChatFacts.

Import Chat JSFacts.

(** The message [handleFeedback] builds for the clicked index. *)
Definition marked (type : FeedbackType) (msg : Message) : Message :=
  {| role := role msg;
     text := text msg;
     liked := Some (match type with
                    | like => negb (truthy (liked msg))
                    | dislike => false
                    end);
     disliked := Some (match type with
                       | dislike => negb (truthy (disliked msg))
                       | like => false
                       end) |}.

Lemma messages_setMessages f st : messages (setMessages f st) = f (messages st).
Proof. reflexivity. Qed.

Lemma setMessages_id f st : f (messages st) = messages st -> setMessages f st = st.
Proof. destruct st as [o ms i l]. unfold setMessages. simpl. intros ->. reflexivity. Qed.

Lemma lookup_handleFeedback index type st (j : nat) :
  messages (handleFeedback index type st) !! j =
  (fun msg => if Z.eqb (Z.of_nat j) index then marked type msg else msg)
    <$> messages st !! j.
Proof. unfold handleFeedback. rewrite messages_setMessages. apply list_lookup_imap. Qed.

Lemma lookup_handleFeedback_at index type st (j : nat) m :
  messages st !! j = Some m -> Z.of_nat j = index ->
  messages (handleFeedback index type st) !! j = Some (marked type m).
Proof.
  intros Hm Hj. rewrite lookup_handleFeedback, Hm. simpl.
  apply Z.eqb_eq in Hj. rewrite Hj. reflexivity.
Qed.

Lemma lookup_handleFeedback_other index type st (j : nat) :
  Z.of_nat j <> index ->
  messages (handleFeedback index type st) !! j = messages st !! j.
Proof.
  intros Hj. rewrite lookup_handleFeedback.
  apply Z.eqb_neq in Hj. rewrite Hj. destruct (messages st !! j); reflexivity.
Qed.

Lemma length_handleFeedback index type st :
  length (messages (handleFeedback index type st)) = length (messages st).
Proof. unfold handleFeedback. rewrite messages_setMessages. apply length_imap. Qed.

Lemma index_out_of_range (index : Z) (ms : list Message) (j : nat) (m : Message) :
  (index < 0 \/ Z.of_nat (length ms) <= index)%Z ->
  ms !! j = Some m -> Z.of_nat j <> index.
Proof.
  intros Hout Hm. apply lookup_lt_Some in Hm. lia.
Qed.

Lemma handleFeedback_out_of_range index type st :
  (index < 0 \/ Z.of_nat (length (messages st)) <= index)%Z ->
  handleFeedback index type st = st.
Proof.
  intros Hout. unfold handleFeedback. apply setMessages_id.
  apply list_eq. intros j. rewrite list_lookup_imap.
  destruct (messages st !! j) as [m|] eqn:Hm; [|reflexivity]. simpl.
  pose proof (index_out_of_range index _ j m Hout Hm) as Hne.
  apply Z.eqb_neq in Hne. rewrite Hne. reflexivity.
Qed.


(** C10: [handleFeedback(i, t)] leaves every message at another index as it
    is, keeps the role and the text of the message at index [i], touches no
    other state of the widget, and changes nothing at all when [i] is outside
    the message list. *)
Theorem handleFeedback_frame (index : Z) (type : FeedbackType) (st : ChatState) :
  length (messages (handleFeedback index type st)) = length (messages st) /\
  (forall (j : nat), Z.of_nat j <> index ->
     messages (handleFeedback index type st) !! j = messages st !! j) /\
  (forall (j : nat) (m : Message), messages st !! j = Some m -> Z.of_nat j = index ->
     exists m', messages (handleFeedback index type st) !! j = Some m' /\
                role m' = role m /\ text m' = text m) /\
  ((index < 0 \/ Z.of_nat (length (messages st)) <= index)%Z ->
     handleFeedback index type st = st) /\
  isOpen (handleFeedback index type st) = isOpen st /\
  input (handleFeedback index type st) = input st /\
  isLoading (handleFeedback index type st) = isLoading st.
Proof.
  split; [apply length_handleFeedback|].
  split; [intros j Hj; apply lookup_handleFeedback_other; exact Hj|].
  split.
  - intros j m Hm Hj. exists (marked type m).
    split; [apply lookup_handleFeedback_at; assumption|]. split; reflexivity.
  - split; [apply handleFeedback_out_of_range|]. repeat split.
Qed.

(** A three-turn conversation: the greeting, a question, the fallback. *)
Definition sample_chat : ChatState :=
  {| isOpen := true;
     messages := [greeting None; mkMessage user (lit "is this a scam?");
                  mkMessage model fallbackText];
     input := [];
     isLoading := false |}.

Lemma handleFeedback_frame_witness :
  messages (handleFeedback 2 like sample_chat) !! 0%nat = messages sample_chat !! 0%nat /\
  (exists m', messages (handleFeedback 2 like sample_chat) !! 2%nat = Some m' /\
              role m' = model /\ text m' = fallbackText) /\
  handleFeedback 7 dislike sample_chat = sample_chat.
Proof.
  split; [|split].
  - apply (proj1 (proj2 (handleFeedback_frame 2 like sample_chat))). discriminate.
  - apply (proj1 (proj2 (proj2 (handleFeedback_frame 2 like sample_chat)))
             2%nat (mkMessage model fallbackText)); reflexivity.
  - apply (proj1 (proj2 (proj2 (proj2 (handleFeedback_frame 7 dislike sample_chat))))).
    right. simpl. lia.
Defined.

Lemma marked_marked_marked type m : marked type (marked type (marked type m)) = marked type m.
Proof. destruct type, m as [r t [[|]|] [[|]|]]; reflexivity. Qed.

Lemma marked_marked_neq type m : marked type (marked type m) <> marked type m.
Proof. destruct type, m as [r t [[|]|] [[|]|]]; discriminate. Qed.

Lemma handleFeedback_thrice index type st :
  handleFeedback index type (handleFeedback index type (handleFeedback index type st))
  = handleFeedback index type st.
Proof.
  destruct st as [o ms i l]. unfold handleFeedback, setMessages. simpl. f_equal.
  apply list_eq. intros j. rewrite !list_lookup_imap.
  destruct (ms !! j) as [m|]; [|reflexivity]. simpl.
  destruct (Z.eqb (Z.of_nat j) index); [|reflexivity].
  f_equal. apply marked_marked_marked.
Qed.

(** C4, as the code has it: [handleFeedback] is a toggle.  For an index
    inside the message list a second identical call flips the flag back, so
    twice differs from once; twice equals once exactly when the index is
    outside the list (both leave it unchanged); three identical calls equal
    one. *)
Theorem handleFeedback_twice (index : Z) (type : FeedbackType) (st : ChatState) :
  ((0 <= index < Z.of_nat (length (messages st)))%Z ->
     handleFeedback index type (handleFeedback index type st)
     <> handleFeedback index type st) /\
  ((index < 0 \/ Z.of_nat (length (messages st)) <= index)%Z ->
     handleFeedback index type (handleFeedback index type st)
     = handleFeedback index type st) /\
  handleFeedback index type (handleFeedback index type (handleFeedback index type st))
  = handleFeedback index type st.
Proof.
  split; [|split].
  - intros Hin Heq.
    assert (Hj : (Z.to_nat index < length (messages st))%nat) by lia.
    apply lookup_lt_is_Some in Hj. destruct Hj as [m Hm].
    assert (Hz : Z.of_nat (Z.to_nat index) = index) by lia.
    pose proof (lookup_handleFeedback_at index type st _ m Hm Hz) as H1.
    pose proof (lookup_handleFeedback_at index type _ _ _ H1 Hz) as H2.
    rewrite Heq, H1 in H2.
    apply (marked_marked_neq type m). congruence.
  - intros Hout. rewrite (handleFeedback_out_of_range index type st Hout).
    apply handleFeedback_out_of_range. exact Hout.
  - apply handleFeedback_thrice.
Qed.

Lemma handleFeedback_twice_witness :
  handleFeedback 0 like (handleFeedback 0 like sample_chat)
  <> handleFeedback 0 like sample_chat /\
  handleFeedback 3 like (handleFeedback 3 like sample_chat)
  = handleFeedback 3 like sample_chat.
Proof.
  split.
  - apply (proj1 (handleFeedback_twice 0 like sample_chat)). simpl. lia.
  - apply (proj1 (proj2 (handleFeedback_twice 3 like sample_chat))).
    right. simpl. lia.
Defined.

(** C4 as stated fails: on the greeting of a fresh chat, liking twice leaves
    the message not liked, liking once leaves it liked. *)
Lemma handleFeedback_not_idempotent :
  handleFeedback 0 like (handleFeedback 0 like (mount None))
  <> handleFeedback 0 like (mount None) /\
  (is_liked <$> messages (handleFeedback 0 like (mount None)) !! 0%nat) = Some true /\
  (is_liked <$> messages (handleFeedback 0 like (handleFeedback 0 like (mount None))) !! 0%nat)
  = Some false.
Proof. split; [discriminate|]. split; reflexivity. Qed.

(** Never shown both liked and disliked. *)
Definition exclusive (m : Message) : Prop := is_liked m && is_disliked m = false.

Lemma truthy_Some (b : bool) : truthy (Some b) = b.
Proof. destruct b; reflexivity. Qed.

Lemma exclusive_mkMessage r t : exclusive (mkMessage r t).
Proof. reflexivity. Qed.

Lemma exclusive_greeting r : exclusive (greeting r).
Proof. destruct r; reflexivity. Qed.

Lemma exclusive_marked type m : exclusive (marked type m).
Proof.
  unfold exclusive, is_liked, is_disliked. destruct type; simpl.
  - apply andb_false_r.
  - reflexivity.
Qed.

Lemma exclusive_handleFeedback index type st :
  Forall exclusive (messages st) ->
  Forall exclusive (messages (handleFeedback index type st)).
Proof.
  intros H. apply Forall_lookup. intros j m' Hm'.
  rewrite lookup_handleFeedback in Hm'.
  destruct (messages st !! j) as [m|] eqn:Hm; [|discriminate].
  simpl in Hm'. injection Hm' as <-.
  destruct (Z.eqb (Z.of_nat j) index).
  - apply exclusive_marked.
  - exact (proj1 (Forall_lookup _ _) H j m Hm).
Qed.

Lemma exclusive_handleSend_call r t st :
  Forall exclusive (messages st) ->
  Forall exclusive (messages (fst (handleSend_call r t st))).
Proof.
  intros H. unfold handleSend_call.
  destruct (negb (truthy_str (trim t)) || isLoading st); simpl; [exact H|].
  apply Forall_app. split; [exact H|].
  constructor; [apply exclusive_mkMessage|constructor].
Qed.

Lemma exclusive_handleSend_resume response st :
  Forall exclusive (messages st) ->
  Forall exclusive (messages (completed (handleSend_resume response st))).
Proof.
  intros H. destruct response; simpl;
    (apply Forall_app; split; [exact H|]);
    (constructor; [apply exclusive_mkMessage|constructor]).
Qed.

Lemma exclusive_rerender prev next st :
  Forall exclusive (messages st) ->
  Forall exclusive (messages (rerender prev next st)).
Proof.
  intros H. unfold rerender. destruct (same_result prev next); [exact H|].
  simpl. constructor; [apply exclusive_greeting|constructor].
Qed.

Lemma exclusive_chat_step w e :
  Forall exclusive (messages (chat w)) ->
  Forall exclusive (messages (chat (chat_step w e))).
Proof.
  intros H. destruct e as [t|r|i t|r]; simpl.
  - pose proof (exclusive_handleSend_call (props w) t (chat w) H) as H'.
    destruct (handleSend_call (props w) t (chat w)) as [st rq]. exact H'.
  - apply exclusive_handleSend_resume. exact H.
  - apply exclusive_handleFeedback. exact H.
  - apply exclusive_rerender. exact H.
Qed.

Lemma exclusive_fold es : forall w,
  Forall exclusive (messages (chat w)) ->
  Forall exclusive (messages (chat (fold_left chat_step es w))).
Proof.
  induction es as [|e es IH]; intros w H; simpl; [exact H|].
  apply IH. apply exclusive_chat_step. exact H.
Qed.

(** The invariant of a chat session: in every reachable state no message is
    both liked and disliked. *)
Lemma exclusive_chat_run analysisResult es :
  Forall exclusive (messages (chat (chat_run analysisResult es))).
Proof.
  apply exclusive_fold. simpl.
  constructor; [apply exclusive_greeting|constructor].
Qed.

(** The flag a feedback kind toggles. *)
Definition flag (type : FeedbackType) (m : Message) : bool :=
  match type with like => is_liked m | dislike => is_disliked m end.

Definition opposite (type : FeedbackType) : FeedbackType :=
  match type with like => dislike | dislike => like end.

(** C7, as the code has it: feedback [t] on message [i] flips flag [t] of
    that message and clears the opposite flag, so after it the message is not
    both liked and disliked (and no message of any reachable conversation
    ever is); given twice, it clears the opposite flag and leaves flag [t]
    as it was: the message is unset again when flag [t] was not set before,
    and still marked when it was. *)
Theorem feedback_exclusive_toggle (index : Z) (type : FeedbackType)
    (st : ChatState) (j : nat) (m : Message) :
  messages st !! j = Some m -> Z.of_nat j = index ->
  (exists m1, messages (handleFeedback index type st) !! j = Some m1 /\
     flag type m1 = negb (flag type m) /\
     flag (opposite type) m1 = false /\
     exclusive m1) /\
  (flag type m = false ->
     exists m2,
       messages (handleFeedback index type (handleFeedback index type st)) !! j = Some m2 /\
       unset m2 = true /\ role m2 = role m /\ text m2 = text m) /\
  (forall analysisResult es,
     Forall exclusive (messages (chat (chat_run analysisResult es)))) /\
  (exists m2,
     messages (handleFeedback index type (handleFeedback index type st)) !! j = Some m2 /\
     flag type m2 = flag type m /\
     flag (opposite type) m2 = false /\
     unset m2 = negb (flag type m) /\
     role m2 = role m /\ text m2 = text m).
Proof.
  intros Hm Hj.
  assert (H2 : messages (handleFeedback index type (handleFeedback index type st)) !! j
               = Some (marked type (marked type m))).
  { apply lookup_handleFeedback_at; [|exact Hj].
    apply lookup_handleFeedback_at; assumption. }
  assert (Hback : flag type (marked type (marked type m)) = flag type m).
  { clear. destruct type, m as [r t [[|]|] [[|]|]]; reflexivity. }
  assert (Hopp : flag (opposite type) (marked type (marked type m)) = false).
  { destruct type; reflexivity. }
  assert (Hunset : unset (marked type (marked type m)) = negb (flag type m)).
  { clear. destruct type, m as [r t [[|]|] [[|]|]]; reflexivity. }
  split; [|split; [|split]].
  - exists (marked type m). split; [apply lookup_handleFeedback_at; assumption|].
    split; [|split].
    + unfold flag, is_liked, is_disliked.
      destruct type; simpl; apply truthy_Some.
    + destruct type; reflexivity.
    + apply exclusive_marked.
  - intros Hflag. exists (marked type (marked type m)). split; [exact H2|].
    split; [rewrite Hunset, Hflag; reflexivity|split; reflexivity].
  - apply exclusive_chat_run.
  - exists (marked type (marked type m)). split; [exact H2|].
    split; [exact Hback|]. split; [exact Hopp|]. split; [exact Hunset|].
    split; reflexivity.
Qed.

Lemma feedback_exclusive_toggle_witness :
  (exists m1, messages (handleFeedback 2 like sample_chat) !! 2%nat = Some m1 /\
     flag like m1 = true /\ flag dislike m1 = false /\ exclusive m1) /\
  (exists m2,
     messages (handleFeedback 2 like (handleFeedback 2 like sample_chat)) !! 2%nat = Some m2 /\
     unset m2 = true /\ role m2 = model /\ text m2 = fallbackText).
Proof.
  pose proof (feedback_exclusive_toggle 2 like sample_chat 2
                (mkMessage model fallbackText) eq_refl eq_refl) as [H1 [H2 _]].
  split; [exact H1|exact (H2 eq_refl)].
Defined.

(** C7 as stated fails in its last part: on a greeting that has been liked
    with one click, two more likes leave it liked, not unset. *)
Lemma feedback_twice_stays_liked :
  let st := chat (chat_run None [Feedback 0 like]) in
  let st' := handleFeedback 0 like (handleFeedback 0 like st) in
  (is_liked <$> messages st !! 0%nat) = Some true /\
  (is_liked <$> messages st' !! 0%nat) = Some true /\
  (unset <$> messages st' !! 0%nat) = Some false /\
  (unset <$> messages st' !! 0%nat) <> Some true.
Proof.
  cbv zeta. split; [reflexivity|]. split; [reflexivity|].
  split; [reflexivity|discriminate].
Qed.

(** A result of the kind the gateway returns. *)
Definition high_risk : AnalysisResult :=
  {| obj_ref := 1;
     riskLevel := lit "High Risk";
     redFlags := [lit "urgency"; lit "shortened link"; lit "prize"] |}.

Example greeting_high_risk :
  text (greeting (Some high_risk)) =
  lit "I've analyzed this content (Risk: High Risk). Found 3 red flags. How can I help?".
Proof. reflexivity. Qed.

(** C6: a render whose [analysisResult] is not the object of the previous
    render (a new result, or a change to or from no result) resets the
    message list to one model turn: with a result, the text that names its
    risk level and the number of its red flags; without one, the fixed
    greeting.  The first render does the same. *)
Theorem greeting_reset (prev next : option AnalysisResult) (w : ChatWorld) :
  props w = prev -> same_result prev next = false ->
  let w' := chat_step w (Props next) in
  messages (chat w') = [greeting next] /\
  messages (mount next) = [greeting next] /\
  role (greeting next) = model /\
  unset (greeting next) = true /\
  text (greeting next) =
    match next with
    | Some r =>
        lit "I've analyzed this content (Risk: " ++ riskLevel r ++ lit "). Found "
          ++ number_toString (N.of_nat (length (redFlags r)))
          ++ lit " red flags. How can I help?"
    | None =>
        lit "Hi! I'm SecureLens AI. Ask me anything about online safety or scam detection."
    end /\
  props w' = next /\ gateway w' = gateway w /\
  isLoading (chat w') = isLoading (chat w) /\ input (chat w') = input (chat w).
Proof.
  intros Hp Hne. simpl. unfold rerender. rewrite Hp, Hne.
  destruct next; repeat split.
Qed.

Lemma greeting_reset_witness :
  messages (chat (chat_step (chat_run None [Send (lit "hello"); Settle Rejected])
                            (Props (Some high_risk))))
  = [greeting (Some high_risk)] /\
  messages (chat (chat_step (chat_run (Some high_risk) [Send (lit "hello")])
                            (Props None)))
  = [greeting None].
Proof.
  split.
  - apply (greeting_reset None (Some high_risk)
             (chat_run None [Send (lit "hello"); Settle Rejected]));
      reflexivity.
  - apply (greeting_reset (Some high_risk) None
             (chat_run (Some high_risk) [Send (lit "hello")]));
      reflexivity.
Defined.

(** C8: a send with empty or white-space-only text, and a send while a reply
    is in flight, returns at once: no turn is appended, no gateway call is
    made, and the widget state is what it was. *)
Theorem handleSend_ignored (textToSend : jsstring) (w : ChatWorld) :
  blank textToSend = true \/ isLoading (chat w) = true ->
  handleSend_call (props w) textToSend (chat w) = (chat w, None) /\
  chat_step w (Send textToSend) = w.
Proof.
  intros H.
  assert (Hc : handleSend_call (props w) textToSend (chat w) = (chat w, None)).
  { unfold handleSend_call. rewrite truthy_trim, negb_involutive.
    destruct H as [-> | ->]; [reflexivity|]. rewrite orb_true_r. reflexivity. }
  split; [exact Hc|].
  simpl. rewrite Hc. rewrite app_nil_r. destruct w; reflexivity.
Qed.

Lemma handleSend_ignored_witness :
  chat_step (chat_run None []) (Send (lit "  ")) = chat_run None [] /\
  chat_step (chat_run None [Send (lit "is this a scam?")]) (Send (lit "and this?"))
  = chat_run None [Send (lit "is this a scam?")].
Proof.
  split.
  - apply (handleSend_ignored (lit "  ") (chat_run None [])).
    left. reflexivity.
  - apply (handleSend_ignored (lit "and this?")
             (chat_run None [Send (lit "is this a scam?")])).
    right. reflexivity.
Defined.

(** The send is taken exactly when the text is not blank and no reply is in
    flight; then one gateway call is made, with the trimmed text and the
    turns before it. *)
Lemma handleSend_taken analysisResult textToSend st :
  blank textToSend = false -> isLoading st = false ->
  handleSend_call analysisResult textToSend st =
  (setMessages (fun prev => prev ++ [mkMessage user (trim textToSend)])
     (setIsLoading true (setInput [] st)),
   Some {| conversationHistory := map (fun m => (role m, text m)) (messages st);
           newText := trim textToSend;
           context := analysisResult |}).
Proof.
  intros Hb Hl. unfold handleSend_call.
  rewrite truthy_trim, Hb, Hl. reflexivity.
Qed.

(** C2 as stated fails: after the first message of a session has failed,
    the conversation holds three turns, the greeting being the first. *)
Lemma failed_send_three_turns :
  let w := chat_run None [Send (lit "is this a scam?"); Settle Rejected] in
  length (gateway w) = 1%nat /\
  messages (chat w) = [greeting None; mkMessage user (lit "is this a scam?");
                       mkMessage model fallbackText] /\
  length (messages (chat w)) <> 2%nat.
Proof. simpl. split; [reflexivity|]. split; [reflexivity|]. discriminate. Qed.

End ChatFacts.

(** ** The analysis surface *)

Module AppFacts.

Import App.

(** The results delivered by the gateway along a list of events, oldest
    first. *)
Definition delivered (es : list AppEvent) : list AnalysisResult :=
  flat_map (fun e =>
    match e with
    | Settled _ _ _ (Fulfilled data) => [data]
    | _ => []
    end) es.

Lemma app_run_snoc es e : app_run (es ++ [e]) = app_step (app_run es) e.
Proof. unfold app_run. rewrite fold_left_app. reflexivity. Qed.

Lemma delivered_snoc es e : delivered (es ++ [e]) = delivered es ++ delivered [e].
Proof. unfold delivered. rewrite flat_map_app. reflexivity. Qed.

Lemma history_step_submit w text img :
  history (app (app_step w (Submit text img))) = history (app w).
Proof. reflexivity. Qed.

Lemma history_step_rejected w text i t :
  history (app (app_step w (Settled text i t Rejected))) = history (app w).
Proof. reflexivity. Qed.

Lemma history_step_fulfilled w text i t data :
  exists item,
    history (app (app_step w (Settled text i t (Fulfilled data)))) = item :: history (app w) /\
    item_result item = data /\ id item = number_toString i /\ timestamp item = t.
Proof. eexists. split; [reflexivity|]. repeat split. Qed.

(** The history holds the delivered results, most recent first. *)
Lemma history_delivered es :
  map item_result (history (app (app_run es))) = rev (delivered es).
Proof.
  induction es as [|e es IH] using rev_ind; [reflexivity|].
  rewrite app_run_snoc, delivered_snoc, rev_app_distr.
  destruct e as [text img|text i t [data|]].
  - rewrite history_step_submit. exact IH.
  - destruct (history_step_fulfilled (app_run es) text i t data) as (item & -> & Hd & _).
    simpl. rewrite Hd, IH. reflexivity.
  - rewrite history_step_rejected. exact IH.
Qed.

(** C1: along every sequence of analyses the history has one entry per
    successful gateway call and holds the delivered results most recent
    first; each success prepends one entry to the history as it was, and
    right after it the first entry carries the very result that has become
    the current one. *)
Theorem history_tracks_successes (es : list AppEvent) (text : jsstring)
    (now_id now_ts : N) (data : AnalysisResult) :
  let before := app (app_run es) in
  let after := app (app_run (es ++ [Settled text now_id now_ts (Fulfilled data)])) in
  length (history before) = length (delivered es) /\
  map item_result (history before) = rev (delivered es) /\
  length (history after) = S (length (delivered es)) /\
  result after = Some data /\
  isAnalyzing after = false /\
  exists item,
    history after = item :: history before /\
    item_result item = data /\
    (item_result <$> head (history after)) = result after.
Proof.
  simpl.
  assert (Hlen : length (history (app (app_run es))) = length (delivered es)).
  { rewrite <- (length_map item_result), history_delivered. apply length_rev. }
  split; [exact Hlen|].
  split; [apply history_delivered|].
  rewrite app_run_snoc.
  destruct (history_step_fulfilled (app_run es) text now_id now_ts data)
    as (item & Hh & Hd & _).
  split; [rewrite Hh; simpl; rewrite Hlen; reflexivity|].
  split; [reflexivity|].
  split; [reflexivity|].
  exists item. split; [exact Hh|]. split; [exact Hd|].
  rewrite Hh. simpl. rewrite Hd. reflexivity.
Qed.

Definition low_risk : AnalysisResult :=
  {| obj_ref := 2; riskLevel := lit "Low Risk"; redFlags := [] |}.

Definition prize_text : jsstring :=
  lit "Congratulations! You won a prize, click here: http://bit.ly/x".

Definition prize_result : AnalysisResult :=
  {| obj_ref := 1;
     riskLevel := lit "High Risk";
     redFlags := [lit "a"; lit "b"; lit "c"] |}.

(** The example of the specification: the snippet is the first 50 code
    units of the text followed by three dots. *)
Example prize_history :
  history (app (app_run [Submit prize_text None;
                         Settled prize_text 1700000000000 1700000000000
                           (Fulfilled prize_result)]))
  = [{| id := lit "1700000000000";
        timestamp := 1700000000000;
        snippet := lit "Congratulations! You won a prize, click here: http...";
        item_result := prize_result |}].
Proof. reflexivity. Qed.

(** C3, as the code has it: [handleAnalyze] does not read the in-flight
    flag.  Called while a request is in flight it makes one more gateway
    call and clears the error slot; at that moment it appends no history
    entry, keeps the current result and leaves the flag set. *)
Theorem handleAnalyze_while_in_flight (text : jsstring)
    (imageBase64 : option jsstring) (w : AppWorld) :
  isAnalyzing (app w) = true ->
  let w' := app_step w (Submit text imageBase64) in
  gateway w' = gateway w ++ [{| req_text := text; req_image := imageBase64 |}] /\
  history (app w') = history (app w) /\
  result (app w') = result (app w) /\
  isAnalyzing (app w') = true /\
  error (app w') = None /\
  user (app w') = user (app w) /\
  (error (app w) = None -> app w' = app w).
Proof.
  intros Hf. simpl. repeat split.
  intros He. destruct w as [[r a e h s u l p] g]. simpl in *.
  subst. reflexivity.
Qed.

Lemma handleAnalyze_while_in_flight_witness :
  let w := app_run [Submit prize_text None] in
  let w' := app_step w (Submit (lit "second") None) in
  length (gateway w') = 2%nat /\ history (app w') = [] /\ app w' = app w.
Proof.
  destruct (handleAnalyze_while_in_flight (lit "second") None
              (app_run [Submit prize_text None]) eq_refl)
    as (Hg & Hh & _ & _ & _ & _ & Hs).
  cbv zeta. split; [rewrite Hg; reflexivity|].
  split; [exact Hh|exact (Hs eq_refl)].
Defined.

(** C3 as stated fails: a second submission while the first is in flight
    reaches the gateway, and when both calls succeed the history has two
    entries. *)
Lemma concurrent_submission_not_ignored :
  let w1 := app_run [Submit prize_text None] in
  let w2 := app_step w1 (Submit (lit "second") None) in
  let w4 := app_run [Submit prize_text None; Submit (lit "second") None;
                     Settled prize_text 1700000000000 1700000000000 (Fulfilled prize_result);
                     Settled (lit "second") 1700000000500 1700000000500 (Fulfilled low_risk)] in
  isAnalyzing (app w1) = true /\
  w2 <> w1 /\
  gateway w2 = [{| req_text := prize_text; req_image := None |};
                {| req_text := lit "second"; req_image := None |}] /\
  map item_result (history (app w4)) = [low_risk; prize_result].
Proof.
  simpl. split; [reflexivity|]. split; [discriminate|]. split; reflexivity.
Qed.

(** *** Deleting a history entry *)

Section Delete.

Variable id0 : jsstring.

Definition kept (h : list AnalysisHistoryItem) : list AnalysisHistoryItem :=
  filter (fun item => id item <> id0) h.



Lemma kept_cons_ne item h : id item <> id0 -> kept (item :: h) = item :: kept h.
Proof. intros H. unfold kept. rewrite filter_cons_True by exact H. reflexivity. Qed.

Lemma kept_cons_eq item h : id item = id0 -> kept (item :: h) = kept h.
Proof.
  intros H. unfold kept. rewrite filter_cons_False; [reflexivity|].
  intros Hn. exact (Hn H).
Qed.




End Delete.




(** Two analyses a second apart. *)
Definition two_ticks : list AppEvent :=
  [Submit prize_text None;
   Settled prize_text 1700000000000 1700000000000 (Fulfilled prize_result);
   Submit (lit "second") None;
   Settled (lit "second") 1700000001000 1700000001000 (Fulfilled low_risk)].



End AppFacts.

(** ** Restoring and starting a session *)

Module LoginFacts.

Import Login.

(** A browser with nothing stored and both components freshly mounted. *)
Definition fresh : World :=
  {| localStorage := ∅; sessionStorage := ∅;
     parent := App.initial; modal := initial |}.

(** A decoder that accepts every payload, and a printer, for the examples. *)
Definition any_payload (base64 : jsstring) : option Payload :=
  Some {| payload_name := Some base64; payload_email := None;
          payload_picture := None |}.

Definition print_name (u : UserProfile) : jsstring :=
  match name u with Some s => s | None => [] end.

(** A parser that accepts one stored string only. *)
Definition parse_braces (s : jsstring) : option UserProfile :=
  if decide (s = lit "{}") then
    Some {| name := None; email := None; avatar := None; joinedDate := 0 |}
  else None.

(** A credential with a payload segment starts a session, in the store the
    remember-me flag selects. *)
Example google_sign_in :
  exists w',
    handleGoogleResponse any_payload print_name (lit "h.p-_.s") 1700000000000 fresh
    = Normal w' /\
    localStorage w' !! securelens_user = Some (lit "p+/") /\
    sessionStorage w' = ∅ /\
    (name <$> App.user (parent w')) = Some (Some (lit "p+/")) /\
    banner true (modal w') = None.
Proof.
  eexists. split; [reflexivity|]. split; [apply lookup_insert_eq|].
  repeat split.
Qed.

Lemma mountEffect_parse_failure (JSON_parse : jsstring -> option UserProfile)
    (ls ss : gmap jsstring jsstring) (innerWidth : N) (st : App.AppState)
    (s : jsstring) :
  or_ostr (ls !! securelens_user) (ss !! securelens_user) = Some s ->
  JSON_parse s = None ->
  App.mountEffect JSON_parse ls ss innerWidth st =
  (App.setIsSidebarOpen (negb (innerWidth <? 1024)) st,
   if truthy_str s then [lit "Failed to parse user session"] else []).
Proof.
  intros Hs Hp. unfold App.mountEffect. rewrite Hs, Hp.
  destruct (truthy_str s); reflexivity.
Qed.

Lemma handleGoogleResponse_failure (decodePayload : jsstring -> option Payload)
    (JSON_stringify : UserProfile -> jsstring) (credential : jsstring) (now : N)
    (w : World) :
  decodeCredential decodePayload credential = None ->
  handleGoogleResponse decodePayload JSON_stringify credential now w =
  Normal (onModal (fun st => setLoading false (setError (Some googleFailed) st)) w).
Proof.
  intros Hd. unfold handleGoogleResponse, try_catch, try_catch_finally, googleTry.
  rewrite Hd. destruct w as [ls ss p [i l s r e]]. reflexivity.
Qed.

(** A browser in which the login modal has been opened. *)
Definition opened : World := onParent (App.setIsLoginOpen true) fresh.

(** C5, as the code has it: a stored profile that does not parse is
    recovered silently, the restore yields no user, shows no error and only
    logs the failure; a credential that does not decode sets no user and
    writes to no store, the handler ends normally with the spinner off, and
    the failure is put in the error slot of the modal, which the modal shows
    whenever it is open, as it is when the sign-in button is used. *)
Theorem parse_failure_recovery
    (JSON_parse : jsstring -> option UserProfile)
    (decodePayload : jsstring -> option Payload)
    (JSON_stringify : UserProfile -> jsstring) :
  (forall (ls ss : gmap jsstring jsstring) (innerWidth : N) (s : jsstring),
     or_ostr (ls !! securelens_user) (ss !! securelens_user) = Some s ->
     JSON_parse s = None ->
     let '(st, console) := App.mountEffect JSON_parse ls ss innerWidth App.initial in
     App.restore JSON_parse ls ss innerWidth = None /\
     App.user st = None /\
     App.error st = None /\
     App.banner st = None /\
     console = if truthy_str s then [lit "Failed to parse user session"] else []) /\
  (forall (credential : jsstring) (now : N) (w : World),
     decodeCredential decodePayload credential = None ->
     exists w',
       handleGoogleResponse decodePayload JSON_stringify credential now w = Normal w' /\
       App.user (parent w') = App.user (parent w) /\
       parent w' = parent w /\
       localStorage w' = localStorage w /\
       sessionStorage w' = sessionStorage w /\
       loading (modal w') = false /\
       error (modal w') = Some googleFailed /\
       shown w' = if App.isLoginOpen (parent w) then Some googleFailed else None).
Proof.
  split.
  - intros ls ss innerWidth s Hs Hp. unfold App.restore.
    rewrite (mountEffect_parse_failure JSON_parse ls ss innerWidth _ s Hs Hp).
    repeat split.
  - intros credential now w Hd. eexists.
    split; [apply handleGoogleResponse_failure; exact Hd|].
    unfold shown. simpl. destruct (App.isLoginOpen (parent w)); repeat split.
Qed.

Lemma parse_failure_recovery_witness :
  App.restore parse_braces {[ securelens_user := lit "{oops" ]} ∅ 1280 = None /\
  exists w',
    handleGoogleResponse any_payload print_name (lit "garbage") 1700000000000 opened
    = Normal w' /\
    parent w' = parent opened /\ localStorage w' = ∅ /\ sessionStorage w' = ∅ /\
    shown w' = Some googleFailed.
Proof.
  pose proof (parse_failure_recovery parse_braces any_payload print_name) as [Hr Hg].
  split.
  - specialize (Hr {[ securelens_user := lit "{oops" ]} ∅ 1280 (lit "{oops")).
    destruct (App.mountEffect parse_braces {[ securelens_user := lit "{oops" ]} ∅
                1280 App.initial) as [st console].
    apply Hr.
    + rewrite lookup_singleton_eq. reflexivity.
    + reflexivity.
  - destruct (Hg (lit "garbage") 1700000000000 opened eq_refl)
      as (w' & H1 & _ & H3 & H4 & H5 & _ & _ & H8).
    exists w'. repeat split; assumption.
Defined.

(** C5 as stated fails in its last part: with the modal open, a credential
    without a payload segment makes the modal show the sign-in error. *)
Lemma credential_failure_is_shown :
  App.isLoginOpen (parent opened) = true /\
  split 46 (lit "garbage") !! 1%nat = None /\
  exists w',
    handleGoogleResponse any_payload print_name (lit "garbage") 1700000000000 opened
    = Normal w' /\
    App.isLoginOpen (parent w') = true /\
    shown w' = Some (lit "Google authentication failed. Please try again.") /\
    shown w' <> None.
Proof.
  split; [reflexivity|]. split; [reflexivity|]. eexists. split; [reflexivity|].
  split; [reflexivity|]. split; [reflexivity|discriminate].
Qed.

End LoginFacts.

(** ** Runs of the analysis surface *)

Module AnalysisFacts.

Import App AppFacts.


Definition is_submit (e : AppEvent) : bool :=
  match e with Submit _ _ => true | Settled _ _ _ _ => false end.



(** The in-flight flag follows the last event only: it is set after a
    submission and cleared after any settled call, however many calls are
    still pending. *)
Theorem flag_follows_last_event (es : list AppEvent) :
  isAnalyzing (app (app_run es)) =
  match last es with Some e => is_submit e | None => false end.
Proof.
  destruct es as [|e es] using rev_ind; [reflexivity|].
  rewrite app_run_snoc, last_snoc.
  destruct e as [text img|text i t [data|]]; reflexivity.
Qed.

(** The snippet of a new history entry: the whole text when it has at most
    50 code units, its first 50 code units and three dots when it is longer,
    and the fixed label when there is no text; never more than 53 code
    units. *)
Theorem snippet_shape (text : jsstring) (now_id now_ts : N)
    (data : AnalysisResult) (st : AppState) :
  exists item,
    history (completed (handleAnalyze_resume text now_id now_ts (Fulfilled data) st))
    = item :: history st /\
    (length (snippet item) <= 53)%nat /\
    (text = [] -> snippet item = lit "Image Analysis") /\
    (text <> [] -> (length text <= 50)%nat -> snippet item = text) /\
    ((50 < length text)%nat ->
       snippet item = take 50 text ++ lit "..." /\ length (snippet item) = 53%nat /\
       take 50 (snippet item) = take 50 text).
Proof.
  eexists. split; [reflexivity|]. cbn [snippet].
  destruct (decide (text = [])) as [->|Hne].
  { split; [vm_compute; lia|]. split; [reflexivity|].
    split; [congruence|]. simpl. lia. }
  assert (Ht : truthy_str text = true) by (destruct text; [congruence|reflexivity]).
  rewrite Ht.
  assert (Hdots : length (lit "...") = 3%nat) by reflexivity.
  destruct (Nat.ltb_spec 50 (length text)) as [Hlt|Hle].
  - unfold substring0.
    assert (Hlen : length (take 50 text ++ lit "...") = 53%nat).
    { rewrite length_app, length_take, Hdots. lia. }
    split; [rewrite Hlen; lia|]. split; [congruence|].
    split; [intros _ Hc; lia|].
    intros _. split; [reflexivity|]. split; [exact Hlen|].
    rewrite take_app_le by (rewrite length_take; lia).
    rewrite take_take. reflexivity.
  - split; [lia|]. split; [congruence|].
    split; [reflexivity|]. intros Hc. lia.
Qed.

Lemma snippet_shape_witness :
  exists item,
    history (completed (handleAnalyze_resume prize_text 1700000000000 1700000000000
                          (Fulfilled prize_result) initial)) = [item] /\
    snippet item = take 50 prize_text ++ lit "..." /\
    length (snippet item) = 53%nat.
Proof.
  destruct (snippet_shape prize_text 1700000000000 1700000000000 prize_result initial)
    as (item & Hh & _ & _ & _ & Hlong).
  exists item. split; [exact Hh|].
  destruct Hlong as (Hs & Hl & _); [vm_compute; lia|].
  split; assumption.
Defined.

End AnalysisFacts.

(** ** History navigation, the chat it feeds, and sign-out *)

Module NavigationFacts.

Import App AppFacts Navigation.

Lemma same_result_refl r : same_result r r = true.
Proof. destruct r as [x|]; [apply N.eqb_refl|reflexivity]. Qed.

Lemma kept_kept_eq a h : kept a (kept a h) = kept a h.
Proof.
  induction h as [|item h IH]; [reflexivity|].
  destruct (decide (id item = a)) as [He|Hne].
  - rewrite (kept_cons_eq a item h He). exact IH.
  - rewrite (kept_cons_ne a item h Hne), (kept_cons_ne a item _ Hne), IH. reflexivity.
Qed.

Lemma kept_kept_comm a b h : kept a (kept b h) = kept b (kept a h).
Proof.
  induction h as [|item h IH]; [reflexivity|].
  destruct (decide (id item = a)) as [Ha|Ha], (decide (id item = b)) as [Hb|Hb];
    rewrite ?(kept_cons_eq a item _ Ha), ?(kept_cons_ne a item _ Ha),
            ?(kept_cons_eq b item _ Hb), ?(kept_cons_ne b item _ Hb),
            ?(kept_cons_eq a item _ Ha), ?(kept_cons_ne a item _ Ha), ?IH;
    reflexivity.
Qed.

(** Deleting by id composes as a set operation: deleting the same id again
    changes nothing, deletions by two ids can be done in either order, and
    clearing the history absorbs a deletion before or after it. *)
Theorem deleteHistoryItem_composes (a b : jsstring) (st : AppState) :
  deleteHistoryItem a (deleteHistoryItem a st) = deleteHistoryItem a st /\
  deleteHistoryItem a (deleteHistoryItem b st) = deleteHistoryItem b (deleteHistoryItem a st) /\
  clearHistory (deleteHistoryItem a st) = clearHistory st /\
  deleteHistoryItem a (clearHistory st) = clearHistory st.
Proof.
  destruct st as [r an e h s u l p].
  unfold deleteHistoryItem, clearHistory, setHistory. simpl.
  split; [f_equal; apply (kept_kept_eq a h)|].
  split; [f_equal; apply (kept_kept_comm a b h)|].
  split; reflexivity.
Qed.

(** After a successful analysis and a reset of the view, loading the newest
    history entry brings back the very result the analysis delivered; the
    history is as it was, the error slot is empty, and the sidebar is closed
    on a narrow window only. *)
Theorem load_newest_after_reset (w : AppWorld) (text : jsstring)
    (now_id now_ts innerWidth : N) (data : AnalysisResult) :
  let st := app (app_step w (Settled text now_id now_ts (Fulfilled data))) in
  exists item,
    head (history st) = Some item /\
    result (resetAnalysis st) = None /\
    let st' := loadHistoryItem innerWidth item (resetAnalysis st) in
    result st' = result st /\
    result st' = Some data /\
    history st' = history st /\
    error st' = None /\
    isSidebarOpen st' = (if innerWidth <? 1024 then false else isSidebarOpen (app w)).
Proof.
  cbv zeta. eexists. split; [reflexivity|]. split; [reflexivity|].
  unfold loadHistoryItem. destruct (innerWidth <? 1024); repeat split.
Qed.

(** The chat widget is given the current result, so it starts over exactly
    when that object changes: deleting or clearing history, submitting, a
    failed analysis and re-selecting the highlighted entry keep the
    conversation; selecting another entry starts one about that entry, and
    leaving a shown result starts the general one. *)
Theorem conversation_follows_result (st : AppState) (c : Chat.ChatState) :
  (forall id0, renderChat st (deleteHistoryItem id0 st) c = c) /\
  renderChat st (clearHistory st) c = c /\
  (forall text img, renderChat st (fst (handleAnalyze_call text img st)) c = c) /\
  (forall text i t,
     renderChat st (completed (handleAnalyze_resume text i t Rejected st)) c = c) /\
  (forall innerWidth item,
     highlighted st item = true ->
     renderChat st (loadHistoryItem innerWidth item st) c = c) /\
  (forall innerWidth item,
     highlighted st item = false ->
     Chat.messages (renderChat st (loadHistoryItem innerWidth item st) c)
     = [Chat.greeting (Some (item_result item))]) /\
  (result st = None -> renderChat st (resetAnalysis st) c = c) /\
  (result st <> None ->
     Chat.messages (renderChat st (resetAnalysis st) c) = [Chat.greeting None]).
Proof.
  unfold renderChat, Chat.rerender.
  split; [intros id0; simpl; rewrite same_result_refl; reflexivity|].
  split; [simpl; rewrite same_result_refl; reflexivity|].
  split; [intros text img; simpl; rewrite same_result_refl; reflexivity|].
  split; [intros text i t; simpl; rewrite same_result_refl; reflexivity|].
  assert (Hload : forall innerWidth item,
            result (loadHistoryItem innerWidth item st) = Some (item_result item)).
  { intros innerWidth item. unfold loadHistoryItem.
    destruct (innerWidth <? 1024); reflexivity. }
  split.
  { intros innerWidth item Hh. rewrite Hload. unfold highlighted in Hh.
    rewrite Hh. reflexivity. }
  split.
  { intros innerWidth item Hh. rewrite Hload. unfold highlighted in Hh.
    rewrite Hh. reflexivity. }
  split.
  - intros Hn. simpl. rewrite Hn. reflexivity.
  - intros Hn. simpl. destruct (result st); [reflexivity|congruence].
Qed.

Lemma conversation_follows_result_witness :
  let st := app (app_run two_ticks) in
  let old := {| id := lit "1700000000000"; timestamp := 1700000000000;
                snippet := take 50 prize_text ++ lit "..."; item_result := prize_result |} in
  let new := {| id := lit "1700000001000"; timestamp := 1700000001000;
                snippet := lit "second"; item_result := low_risk |} in
  renderChat st (loadHistoryItem 1280 new st) ChatFacts.sample_chat = ChatFacts.sample_chat /\
  Chat.messages (renderChat st (loadHistoryItem 1280 old st) ChatFacts.sample_chat)
  = [Chat.greeting (Some prize_result)] /\
  Chat.messages (renderChat st (resetAnalysis st) ChatFacts.sample_chat)
  = [Chat.greeting None].
Proof.
  cbv zeta.
  pose proof (conversation_follows_result (app (app_run two_ticks)) ChatFacts.sample_chat)
    as (_ & _ & _ & _ & Hsame & Hother & _ & Hreset).
  split; [apply Hsame; reflexivity|].
  split; [apply Hother; reflexivity|].
  apply Hreset. discriminate.
Defined.

(** *** Sessions of the page *)

(** The states the page can reach, with the results the gateway has
    delivered so far, newest first.  An entry can be loaded only from the
    history list, which is where its button is. *)
Inductive page : AppState -> list AnalysisResult -> Prop :=
| page_start : page initial []
| page_submit st ds text img :
    page st ds -> page (fst (handleAnalyze_call text img st)) ds
| page_success st ds text now_id now_ts data :
    page st ds ->
    page (completed (handleAnalyze_resume text now_id now_ts (Fulfilled data) st))
      (data :: ds)
| page_failure st ds text now_id now_ts :
    page st ds ->
    page (completed (handleAnalyze_resume text now_id now_ts Rejected st)) ds
| page_reset st ds : page st ds -> page (resetAnalysis st) ds
| page_load st ds innerWidth item :
    page st ds -> item ∈ history st -> page (loadHistoryItem innerWidth item st) ds
| page_delete st ds id0 : page st ds -> page (deleteHistoryItem id0 st) ds
| page_clear st ds : page st ds -> page (clearHistory st) ds.

Lemma history_loadHistoryItem innerWidth item st :
  history (loadHistoryItem innerWidth item st) = history st /\
  result (loadHistoryItem innerWidth item st) = Some (item_result item).
Proof. unfold loadHistoryItem. destruct (innerWidth <? 1024); split; reflexivity. Qed.

(** In every session of the page (submissions, settled calls, reset,
    loading an entry of the history, deleting by id, clearing) the results
    of the history entries are, in their order, a subsequence of the results
    the gateway delivered, newest first, and the current result is either
    none or one of the delivered results: nothing is stored or shown that
    the gateway did not deliver, and the order of the history never
    changes. *)
Theorem page_shows_delivered (st : AppState) (ds : list AnalysisResult) :
  page st ds ->
  (item_result <$> history st) `sublist_of` ds /\
  (forall item, item ∈ history st -> item_result item ∈ ds) /\
  (forall r, result st = Some r -> r ∈ ds) /\
  (length (history st) <= length ds)%nat.
Proof.
  intros Hp.
  assert (H : (item_result <$> history st) `sublist_of` ds /\
              (forall r, result st = Some r -> r ∈ ds)).
  { induction Hp as [|st ds text img Hp [Hs Hr]|st ds text i t data Hp [Hs Hr]
                     |st ds text i t Hp [Hs Hr]|st ds Hp [Hs Hr]
                     |st ds w item Hp [Hs Hr] Hin|st ds id0 Hp [Hs Hr]
                     |st ds Hp [Hs Hr]].
    - split; [constructor|]. intros r Hr. discriminate Hr.
    - split; [exact Hs|exact Hr].
    - split.
      + simpl. apply sublist_skip. exact Hs.
      + simpl. intros r [= <-]. apply list_elem_of_here.
    - split; [exact Hs|exact Hr].
    - split; [exact Hs|]. intros r Hn. discriminate Hn.
    - destruct (history_loadHistoryItem w item st) as [Hh Hres].
      rewrite Hh, Hres. split; [exact Hs|].
      intros r [= <-].
      apply (sublist_subseteq _ _ Hs). apply list_elem_of_fmap_2. exact Hin.
    - split; [|exact Hr]. simpl.
      transitivity (item_result <$> history st); [|exact Hs].
      apply fmap_sublist. apply sublist_filter.
    - split; [|exact Hr]. simpl. apply sublist_nil_l. }
  destruct H as [Hs Hr]. split; [exact Hs|]. split; [|split; [exact Hr|]].
  - intros item Hin. apply (sublist_subseteq _ _ Hs).
    apply list_elem_of_fmap_2. exact Hin.
  - rewrite <- (length_fmap item_result). apply sublist_length. exact Hs.
Qed.

(** The page after an analysis, a return to the form, a second analysis and
    the deletion of the first entry. *)
Definition visited : AppState :=
  deleteHistoryItem (lit "1700000000000")
    (completed (handleAnalyze_resume (lit "second") 1700000001000 1700000001000
                  (Fulfilled low_risk)
       (fst (handleAnalyze_call (lit "second") None
          (resetAnalysis
             (completed (handleAnalyze_resume prize_text 1700000000000 1700000000000
                           (Fulfilled prize_result)
                (fst (handleAnalyze_call prize_text None initial))))))))).

Lemma page_shows_delivered_witness :
  (item_result <$> history visited) `sublist_of` [low_risk; prize_result] /\
  (forall r, result visited = Some r -> r ∈ [low_risk; prize_result]).
Proof.
  pose proof (page_shows_delivered visited [low_risk; prize_result]
                (page_delete _ _ _
                   (page_success _ _ _ _ _ _
                      (page_submit _ _ _ _
                         (page_reset _ _
                            (page_success _ _ _ _ _ _
                               (page_submit _ _ _ _ page_start)))))))
    as (H1 & _ & H3 & _).
  split; [exact H1|exact H3].
Defined.

(** A browser in which a profile is stored in both stores and shown. *)
Definition signed_in : Login.World :=
  {| Login.localStorage := {[ securelens_user := lit "{a}"; lit "theme" := lit "dark" ]};
     Login.sessionStorage := {[ securelens_user := lit "{b}" ]};
     Login.parent :=
       setIsProfileDropdownOpen true
         (setUser (Some {| name := Some (lit "Ann"); email := None; avatar := None;
                           joinedDate := 0 |}) initial);
     Login.modal := Login.initial |}.

(** Signing out ends the session for good: the user is gone, the profile key
    is gone from both stores whatever they held, every other key is kept,
    and a reload finds no user, whatever the parser; the analysis state and
    the history are untouched; signing out again changes nothing. *)
Theorem logout_ends_session (JSON_parse : jsstring -> option UserProfile)
    (innerWidth : N) (w : Login.World) :
  let w' := handleLogout w in
  user (Login.parent w') = None /\
  isProfileDropdownOpen (Login.parent w') = false /\
  Login.localStorage w' !! securelens_user = None /\
  Login.sessionStorage w' !! securelens_user = None /\
  (forall k, k <> securelens_user ->
     Login.localStorage w' !! k = Login.localStorage w !! k /\
     Login.sessionStorage w' !! k = Login.sessionStorage w !! k) /\
  restore JSON_parse (Login.localStorage w') (Login.sessionStorage w') innerWidth = None /\
  history (Login.parent w') = history (Login.parent w) /\
  result (Login.parent w') = result (Login.parent w) /\
  Login.modal w' = Login.modal w /\
  handleLogout w' = w'.
Proof.
  cbv zeta. destruct w as [ls ss [r an e h s u l p] m].
  unfold handleLogout, Login.onParent. simpl.
  split; [reflexivity|]. split; [reflexivity|].
  split; [apply lookup_delete_eq|]. split; [apply lookup_delete_eq|].
  split.
  { intros k Hk. split; apply lookup_delete_ne; congruence. }
  split.
  { unfold restore, mountEffect. rewrite !lookup_delete_eq. reflexivity. }
  split; [reflexivity|]. split; [reflexivity|]. split; [reflexivity|].
  unfold setIsProfileDropdownOpen, setUser. simpl.
  rewrite !delete_delete_eq. reflexivity.
Qed.

Lemma logout_ends_session_witness :
  Login.localStorage (handleLogout signed_in) !! lit "theme" = Some (lit "dark") /\
  restore LoginFacts.parse_braces (Login.localStorage (handleLogout signed_in))
    (Login.sessionStorage (handleLogout signed_in)) 1280 = None.
Proof.
  pose proof (logout_ends_session LoginFacts.parse_braces 1280 signed_in)
    as (_ & _ & _ & _ & Hk & Hr & _).
  split; [|exact Hr].
  rewrite (proj1 (Hk (lit "theme") ltac:(discriminate))).
  unfold signed_in. simpl. rewrite lookup_insert_ne by discriminate.
  apply lookup_insert_eq.
Defined.

Definition riskLevels : list jsstring :=
  [lit "High Risk"; lit "Medium Risk"; lit "Low Risk"; lit "Safe"].

(** The badge colour is chosen by exact match on the four risk labels: the
    four labels get four different colours, none of them the neutral one,
    and every other string (another case, extra spaces) gets the neutral
    colour. *)
Theorem getRiskColor_exact (level : jsstring) :
  (getRiskColor level = lit "text-slate-700 bg-slate-50 border-slate-200"
   <-> level ∉ riskLevels) /\
  NoDup (getRiskColor <$> riskLevels).
Proof.
  split.
  - unfold getRiskColor, riskLevels.
    rewrite !not_elem_of_cons.
    repeat case_decide; subst; split; intros Hx;
      try (exfalso; vm_compute in Hx; discriminate Hx);
      try (exfalso; tauto);
      try reflexivity.
    repeat split; try assumption. apply not_elem_of_nil.
  - apply (bool_decide_unpack _). vm_compute. exact I.
Qed.

Lemma getRiskColor_exact_witness :
  getRiskColor (lit "high risk") = lit "text-slate-700 bg-slate-50 border-slate-200".
Proof.
  apply (proj2 (proj1 (getRiskColor_exact (lit "high risk")))).
  apply (bool_decide_unpack _). vm_compute. exact I.
Defined.

End NavigationFacts.

(** ** Signing in *)

Module SignInFacts.

Import Login SignIn.

(** *** Splitting at a separator *)

Lemma split_aux_no_sep sep cur (s : jsstring) :
  sep ∉ s -> split_aux sep cur s = [rev cur ++ s].
Proof.
  revert cur. induction s as [|c s IH]; intros cur Hs; simpl.
  - rewrite app_nil_r. reflexivity.
  - apply not_elem_of_cons in Hs as [Hc Hs].
    destruct (N.eqb_spec c sep) as [->|_]; [congruence|].
    rewrite (IH (c :: cur) Hs). simpl. rewrite <- app_assoc. reflexivity.
Qed.

Lemma split_aux_first sep cur (a b : jsstring) :
  sep ∉ a ->
  split_aux sep cur (a ++ sep :: b) = (rev cur ++ a) :: split_aux sep [] b.
Proof.
  revert cur. induction a as [|c a IH]; intros cur Ha; simpl.
  - rewrite N.eqb_refl, app_nil_r. reflexivity.
  - apply not_elem_of_cons in Ha as [Hc Ha].
    destruct (N.eqb_spec c sep) as [->|_]; [congruence|].
    rewrite (IH (c :: cur) Ha). simpl. rewrite <- app_assoc. reflexivity.
Qed.

Lemma split_first sep (a b : jsstring) :
  sep ∉ a -> split sep (a ++ sep :: b) = a :: split sep b.
Proof. intros Ha. unfold split. rewrite split_aux_first by exact Ha. reflexivity. Qed.

Lemma split_no_sep sep (s : jsstring) : sep ∉ s -> split sep s = [s].
Proof. intros Hs. unfold split. rewrite split_aux_no_sep by exact Hs. reflexivity. Qed.

Lemma split_aux_head sep cur (s : jsstring) :
  exists seg rest tail,
    split_aux sep cur s = (rev cur ++ seg) :: rest /\
    (sep ∉ seg) /\ s = seg ++ tail /\ (tail = [] \/ head tail = Some sep).
Proof.
  revert cur. induction s as [|c s IH]; intros cur; simpl.
  - exists [], [], []. rewrite app_nil_r. split; [reflexivity|].
    split; [apply not_elem_of_nil|]. split; [reflexivity|left; reflexivity].
  - destruct (N.eqb_spec c sep) as [->|Hne].
    + exists [], (split_aux sep [] s), (sep :: s). rewrite app_nil_r.
      split; [reflexivity|]. split; [apply not_elem_of_nil|].
      split; [reflexivity|right; reflexivity].
    + destruct (IH (c :: cur)) as (seg & rest & tail & Hs & Hn & He & Ht).
      exists (c :: seg), rest, tail.
      split; [rewrite Hs; simpl; rewrite <- app_assoc; reflexivity|].
      split; [apply not_elem_of_cons; split; [congruence|exact Hn]|].
      split; [simpl; congruence|exact Ht].
Qed.

(** *** The password form *)

(** The form is blocked exactly in sign-up mode with two different emails:
    then the mismatch is shown, the spinner stays off and nothing is
    scheduled.  Otherwise (sign-in mode, where the confirmation field is
    not looked at, or equal emails) the error is cleared, the spinner is
    set and the callback is scheduled with the fields and the remember-me
    flag of that moment. *)
Theorem signup_validation (formData : FormData.t) (st : LoginState) :
  (isLogin st = false ->
   FormData.email formData <> FormData.confirmEmail formData ->
   exists st',
     handleSubmit_call formData st = (st', None) /\
     banner true st' = Some emailsDoNotMatch /\
     loading st' = loading st /\ rememberMe st' = rememberMe st /\
     isLogin st' = isLogin st) /\
  (isLogin st = true \/ FormData.email formData = FormData.confirmEmail formData ->
   exists st' c,
     handleSubmit_call formData st = (st', Some c) /\
     loading st' = true /\ banner true st' = None /\
     sch_formData c = formData /\ sch_rememberMe c = rememberMe st /\
     sch_isLogin c = isLogin st).
Proof.
  unfold handleSubmit_call. split.
  - intros Hm Hne. rewrite Hm. rewrite bool_decide_eq_false_2 by exact Hne.
    eexists. split; [reflexivity|]. repeat split. exact Hm.
  - intros [Hm|He].
    + rewrite Hm. eexists _, _. split; [reflexivity|]. repeat split.
    + rewrite bool_decide_eq_true_2 by exact He. rewrite andb_false_r.
      eexists _, _. split; [reflexivity|]. repeat split.
Qed.

Definition ann_form : FormData.t :=
  {| FormData.name := []; FormData.email := lit "ann@example.com";
     FormData.confirmEmail := lit "ann@exmaple.com"; FormData.password := lit "pw" |}.

Definition sign_up_mode : LoginState := switchMode initial.

Lemma signup_validation_witness :
  (exists st', handleSubmit_call ann_form sign_up_mode = (st', None) /\
               banner true st' = Some emailsDoNotMatch) /\
  (exists st' c, handleSubmit_call ann_form initial = (st', Some c) /\
                 loading st' = true).
Proof.
  split.
  - destruct (proj1 (signup_validation ann_form sign_up_mode) eq_refl ltac:(discriminate))
      as (st' & H1 & H2 & _).
    exists st'. split; assumption.
  - destruct (proj2 (signup_validation ann_form initial) (or_introl eq_refl))
      as (st' & c & H1 & H2 & _).
    exists st', c. split; assumption.
Defined.

(** In sign-in mode with an empty name field the display name is the part
    of the email before its first [@] (the whole email when it has none); in
    sign-up mode, and whenever the name field is filled, it is the name
    field. *)
Theorem displayName_from_email (c : Scheduled) :
  (sch_isLogin c = true -> FormData.name (sch_formData c) = [] ->
   exists tail,
     FormData.email (sch_formData c) = displayName c ++ tail /\
     (64 ∉ displayName c) /\
     (tail = [] \/ head tail = Some 64)) /\
  (sch_isLogin c = false \/ FormData.name (sch_formData c) <> [] ->
   displayName c = FormData.name (sch_formData c)).
Proof.
  unfold displayName. split.
  - intros Hm Hn. rewrite Hm, Hn. simpl.
    destruct (split_aux_head 64 [] (FormData.email (sch_formData c)))
      as (seg & rest & tail & Hs & Hseg & He & Ht).
    unfold split. rewrite Hs. simpl. exists tail.
    split; [exact He|]. split; [exact Hseg|exact Ht].
  - intros [Hm|Hn].
    + rewrite Hm. reflexivity.
    + destruct (sch_isLogin c); [|reflexivity].
      destruct (FormData.name (sch_formData c)); [congruence|reflexivity].
Qed.

Definition ann_sign_in : Scheduled :=
  {| sch_isLogin := true; sch_formData := ann_form; sch_rememberMe := false |}.

Lemma displayName_from_email_witness :
  (exists tail, lit "ann@example.com" = displayName ann_sign_in ++ tail /\
                (64 ∉ displayName ann_sign_in) /\
                (tail = [] \/ head tail = Some 64)) /\
  displayName {| sch_isLogin := false; sch_formData := ann_form; sch_rememberMe := true |} = [].
Proof.
  split.
  - apply (proj1 (displayName_from_email ann_sign_in)); reflexivity.
  - apply (proj2 (displayName_from_email
                    {| sch_isLogin := false; sch_formData := ann_form;
                       sch_rememberMe := true |})).
    left. reflexivity.
Defined.

Example displayName_ann : displayName ann_sign_in = lit "ann".
Proof. reflexivity. Qed.

(** What a reload restores, read off the two stores. *)
Lemma restore_lookup (JSON_parse : jsstring -> option UserProfile)
    (ls ss : gmap jsstring jsstring) (innerWidth : N) :
  App.restore JSON_parse ls ss innerWidth =
  match or_ostr (ls !! securelens_user) (ss !! securelens_user) with
  | Some s => if truthy_str s then JSON_parse s else None
  | None => None
  end.
Proof.
  unfold App.restore, App.mountEffect.
  destruct (or_ostr (ls !! securelens_user) (ss !! securelens_user)) as [s|];
    [|reflexivity].
  destruct (truthy_str s); [|reflexivity].
  destruct (JSON_parse s); reflexivity.
Qed.

Lemma restore_durable (JSON_parse : jsstring -> option UserProfile)
    (ls ss : gmap jsstring jsstring) (innerWidth : N) (s : jsstring) :
  ls !! securelens_user = Some s -> truthy_str s = true ->
  App.restore JSON_parse ls ss innerWidth = JSON_parse s.
Proof.
  intros Hl Ht. rewrite restore_lookup, Hl. unfold or_ostr. simpl.
  rewrite Ht. simpl. rewrite Ht. reflexivity.
Qed.

Lemma restore_session (JSON_parse : jsstring -> option UserProfile)
    (ls ss : gmap jsstring jsstring) (innerWidth : N) :
  truthy_ostr (ls !! securelens_user) = false ->
  App.restore JSON_parse ls ss innerWidth =
  match ss !! securelens_user with
  | Some s => if truthy_str s then JSON_parse s else None
  | None => None
  end.
Proof.
  intros Hl. rewrite restore_lookup. unfold or_ostr. rewrite Hl. reflexivity.
Qed.

Section Completion.

Variable toUpperCase : jsstring -> jsstring.
Variable encodeURIComponent : jsstring -> option jsstring.
Variable JSON_stringify : UserProfile -> jsstring.
Variable JSON_parse : jsstring -> option UserProfile.

(** The profile the timer callback builds. *)
Definition profileOf (c : Scheduled) (now : N) (encoded : jsstring) : UserProfile :=
  {| name := Some (toUpperCase (take 1 (displayName c)) ++ drop 1 (displayName c));
     email := Some (FormData.email (sch_formData c));
     avatar := Some (lit "https://ui-avatars.com/api/?name=" ++ encoded
                       ++ lit "&background=2563eb&color=fff");
     joinedDate := now |}.

Definition stored (c : Scheduled) (now : N) (encoded : jsstring) (w : World) : World :=
  if sch_rememberMe c
  then localStorage_setItem securelens_user (JSON_stringify (profileOf c now encoded)) w
  else sessionStorage_setItem securelens_user (JSON_stringify (profileOf c now encoded)) w.

Lemma handleSubmit_timeout_done c now w encoded :
  encodeURIComponent (displayName c) = Some encoded ->
  handleSubmit_timeout toUpperCase encodeURIComponent JSON_stringify c now w =
  Normal (onParent (App.setIsLoginOpen false)
            (onModal (setLoading false)
               (onParent (App.handleLogin (profileOf c now encoded))
                  (stored c now encoded w)))).
Proof. intros He. unfold handleSubmit_timeout. rewrite He. reflexivity. Qed.

(** When the timer fires the profile is written to exactly one store, the
    durable one if remember-me was ticked at submit time and the session one
    otherwise; the other store and every other key are left as they are.
    The profile becomes the page's user with the email of the form, the
    modal is closed and the spinner is off. *)
Theorem password_sign_in (c : Scheduled) (now : N) (w : World) (encoded : jsstring) :
  encodeURIComponent (displayName c) = Some encoded ->
  exists w',
    handleSubmit_timeout toUpperCase encodeURIComponent JSON_stringify c now w = Normal w' /\
    App.user (parent w') = Some (profileOf c now encoded) /\
    (if sch_rememberMe c
     then localStorage w' = <[securelens_user := JSON_stringify (profileOf c now encoded)]>
                              (localStorage w) /\
          sessionStorage w' = sessionStorage w
     else sessionStorage w' = <[securelens_user := JSON_stringify (profileOf c now encoded)]>
                                (sessionStorage w) /\
          localStorage w' = localStorage w) /\
    (forall k, k <> securelens_user ->
       localStorage w' !! k = localStorage w !! k /\
       sessionStorage w' !! k = sessionStorage w !! k) /\
    loading (modal w') = false /\
    App.isLoginOpen (parent w') = false /\
    error (modal w') = error (modal w) /\
    App.history (parent w') = App.history (parent w) /\
    App.result (parent w') = App.result (parent w).
Proof.
  intros He. eexists. split; [apply handleSubmit_timeout_done; exact He|].
  unfold stored. destruct (sch_rememberMe c); simpl.
  - split; [reflexivity|]. split; [split; reflexivity|]. split; [|repeat split].
    intros k Hk. split; [|reflexivity]. apply lookup_insert_ne. congruence.
  - split; [reflexivity|]. split; [split; reflexivity|]. split; [|repeat split].
    intros k Hk. split; [reflexivity|]. apply lookup_insert_ne. congruence.
Qed.

(** A reload after signing in, with a parser that reads back what was
    written: with remember-me the user is restored, also in a new browser
    session (empty session store); without it the user is restored while the
    session store lives, provided the durable store holds no profile, and is
    gone in a new browser session. *)
Theorem sign_in_then_reload (c : Scheduled) (now innerWidth : N) (w : World)
    (encoded : jsstring) :
  encodeURIComponent (displayName c) = Some encoded ->
  JSON_parse (JSON_stringify (profileOf c now encoded)) = Some (profileOf c now encoded) ->
  truthy_str (JSON_stringify (profileOf c now encoded)) = true ->
  let w' := completed (handleSubmit_timeout toUpperCase encodeURIComponent
                         JSON_stringify c now w) in
  (sch_rememberMe c = true ->
   App.restore JSON_parse (localStorage w') (sessionStorage w') innerWidth
   = Some (profileOf c now encoded) /\
   App.restore JSON_parse (localStorage w') ∅ innerWidth
   = Some (profileOf c now encoded)) /\
  (sch_rememberMe c = false ->
   truthy_ostr (localStorage w !! securelens_user) = false ->
   App.restore JSON_parse (localStorage w') (sessionStorage w') innerWidth
   = Some (profileOf c now encoded) /\
   App.restore JSON_parse (localStorage w') ∅ innerWidth = None).
Proof.
  intros He Hp Ht. cbv zeta. rewrite (handleSubmit_timeout_done c now w encoded He).
  unfold stored. split.
  - intros Hr. rewrite Hr. simpl.
    rewrite !(restore_durable JSON_parse _ _ innerWidth _ (lookup_insert_eq _ _ _) Ht).
    split; exact Hp.
  - intros Hr Hl. rewrite Hr. simpl.
    rewrite !(restore_session JSON_parse _ _ innerWidth Hl).
    rewrite lookup_insert_eq, lookup_empty, Ht. split; [exact Hp|reflexivity].
Qed.

(** Signing in without remember-me writes the session store only and does
    not clear the durable one, which a reload reads first: a profile left in
    the durable store is what the reload restores, not the one just signed
    in. *)
Theorem session_sign_in_shadowed (c : Scheduled) (now innerWidth : N) (w : World)
    (encoded s : jsstring) :
  encodeURIComponent (displayName c) = Some encoded ->
  sch_rememberMe c = false ->
  localStorage w !! securelens_user = Some s -> truthy_str s = true ->
  let w' := completed (handleSubmit_timeout toUpperCase encodeURIComponent
                         JSON_stringify c now w) in
  App.user (parent w') = Some (profileOf c now encoded) /\
  App.restore JSON_parse (localStorage w') (sessionStorage w') innerWidth = JSON_parse s.
Proof.
  intros He Hr Hl Ht. cbv zeta.
  rewrite (handleSubmit_timeout_done c now w encoded He).
  unfold stored. rewrite Hr. simpl. split; [reflexivity|].
  apply restore_durable; assumption.
Qed.

(** When [encodeURIComponent] throws on the display name, the exception
    leaves the timer callback before anything is written: no user, no store
    entry, the modal stays open, and the spinner that [handleSubmit] set
    stays on. *)
Theorem sign_in_encode_failure (formData : FormData.t) (now : N) (w : World)
    (st' : LoginState) (c : Scheduled) :
  handleSubmit_call formData (modal w) = (st', Some c) ->
  encodeURIComponent (displayName c) = None ->
  let w1 := onModal (fun _ => st') w in
  handleSubmit_timeout toUpperCase encodeURIComponent JSON_stringify c now w1 = Throw w1 /\
  loading (modal w1) = true /\
  parent w1 = parent w /\ localStorage w1 = localStorage w /\
  sessionStorage w1 = sessionStorage w.
Proof.
  intros Hc He. cbv zeta. unfold handleSubmit_timeout. rewrite He.
  split; [reflexivity|]. split; [|repeat split].
  unfold handleSubmit_call in Hc.
  destruct (negb (isLogin (modal w)) &&
            negb (bool_decide (FormData.email formData = FormData.confirmEmail formData)));
    [discriminate|].
  injection Hc as <- _. reflexivity.
Qed.

End Completion.

(** Stand-ins for the built-ins in the examples: upper case on ASCII
    letters, an encoder that passes strings without surrogates through, a
    printer, and the parser that reads one printed profile back. *)
Definition upper_ascii (s : jsstring) : jsstring :=
  map (fun c => if (97 <=? c) && (c <=? 122) then c - 32 else c) s.

Definition encode_plain (s : jsstring) : option jsstring :=
  if forallb (fun c => (c <? 55296) || (57343 <? c)) s then Some s else None.

Definition print_profile (u : UserProfile) : jsstring :=
  lit "{" ++ default [] (name u) ++ lit "," ++ default [] (email u) ++ lit "}".

Definition parse_only (u : UserProfile) (s : jsstring) : option UserProfile :=
  if decide (s = print_profile u) then Some u else None.

Definition ann_remembered : Scheduled :=
  {| sch_isLogin := true; sch_formData := ann_form; sch_rememberMe := true |}.

Definition ann_profile : UserProfile :=
  profileOf upper_ascii ann_remembered 1700000000000 (lit "ann").

Example ann_profile_name : name ann_profile = Some (lit "Ann").
Proof. reflexivity. Qed.

(** A browser whose durable store still holds an older profile. *)
Definition stale : World :=
  {| localStorage := {[ securelens_user := lit "{Bob,bob@example.com}" ]};
     sessionStorage := ∅; parent := App.initial; modal := setLoading true initial |}.

Lemma password_sign_in_witness :
  exists w',
    handleSubmit_timeout upper_ascii encode_plain print_profile ann_remembered
      1700000000000 LoginFacts.fresh = Normal w' /\
    App.user (parent w') = Some ann_profile /\
    localStorage w' = {[ securelens_user := lit "{Ann,ann@example.com}" ]} /\
    sessionStorage w' = ∅.
Proof.
  destruct (password_sign_in upper_ascii encode_plain print_profile ann_remembered
              1700000000000 LoginFacts.fresh (lit "ann") eq_refl)
    as (w' & H1 & H2 & [H3 H4] & _).
  exists w'. split; [exact H1|]. split; [exact H2|]. split; [exact H3|exact H4].
Defined.

Lemma sign_in_then_reload_witness :
  let w' := completed (handleSubmit_timeout upper_ascii encode_plain print_profile
                         ann_remembered 1700000000000 LoginFacts.fresh) in
  App.restore (parse_only ann_profile) (localStorage w') ∅ 1280 = Some ann_profile.
Proof.
  apply (proj1 (sign_in_then_reload upper_ascii encode_plain print_profile
                  (parse_only ann_profile) ann_remembered 1700000000000 1280
                  LoginFacts.fresh (lit "ann") eq_refl eq_refl eq_refl) eq_refl).
Defined.

Lemma session_sign_in_shadowed_witness :
  let w' := completed (handleSubmit_timeout upper_ascii encode_plain print_profile
                         ann_sign_in 1700000000000 stale) in
  (name <$> App.user (parent w')) = Some (Some (lit "Ann")) /\
  App.restore (parse_only ann_profile) (localStorage w') (sessionStorage w') 1280 = None.
Proof.
  destruct (session_sign_in_shadowed upper_ascii encode_plain print_profile
              (parse_only ann_profile) ann_sign_in 1700000000000 1280 stale
              (lit "ann") (lit "{Bob,bob@example.com}") eq_refl eq_refl eq_refl eq_refl)
    as [Hu Hr].
  cbv zeta. split; [rewrite Hu; reflexivity|]. rewrite Hr. reflexivity.
Defined.

(** A name field holding a lone surrogate. *)
Definition broken_form : FormData.t :=
  {| FormData.name := [55357]; FormData.email := lit "ann@example.com";
     FormData.confirmEmail := []; FormData.password := [] |}.

Lemma sign_in_encode_failure_witness :
  exists st' c,
    handleSubmit_call broken_form initial = (st', Some c) /\
    handleSubmit_timeout upper_ascii encode_plain print_profile c 1700000000000
      (onModal (fun _ => st') LoginFacts.fresh)
    = Throw (onModal (fun _ => st') LoginFacts.fresh) /\
    loading st' = true.
Proof.
  eexists _, _. split; [reflexivity|].
  pose proof (sign_in_encode_failure upper_ascii encode_plain print_profile broken_form
                1700000000000 LoginFacts.fresh _ _ eq_refl eq_refl) as (H1 & H2 & _).
  split; [exact H1|exact H2].
Defined.

(** *** The federated sign-in *)

Section Credential.

Variable decodePayload : jsstring -> option Payload.
Variable JSON_stringify : UserProfile -> jsstring.

Lemma replace_all_gone (a b : N) (s : jsstring) : a <> b -> a ∉ replace_all a b s.
Proof.
  intros Hab Hin. unfold replace_all in Hin.
  apply list_elem_of_fmap in Hin as (c & Hc & _).
  destruct (N.eqb_spec c a); congruence.
Qed.

Lemma replace_all_keeps (a b x : N) (s : jsstring) :
  x <> b -> x ∉ s -> x ∉ replace_all a b s.
Proof.
  intros Hxb Hs Hin. unfold replace_all in Hin.
  apply list_elem_of_fmap in Hin as (c & Hc & Hcs).
  destruct (N.eqb_spec c a); [congruence|]. subst. exact (Hs Hcs).
Qed.

(** Only the middle segment of a credential is read: the header and the
    signature are never looked at, so two credentials with the same payload
    segment are handled alike, signed or not.  The payload reaches the
    decoder with every [-] turned into [+] and every [_] into [/]. *)
Theorem credential_payload_only (h p s : jsstring) :
  46 ∉ h -> 46 ∉ p ->
  let base64 := replace_all 95 47 (replace_all 45 43 p) in
  decodeCredential decodePayload (h ++ 46 :: p ++ 46 :: s) = decodePayload base64 /\
  decodeCredential decodePayload (h ++ 46 :: p) = decodePayload base64 /\
  (45 ∉ base64) /\ (95 ∉ base64) /\ length base64 = length p /\
  (forall (h' s' : jsstring) (now : N) (w : World),
     46 ∉ h' ->
     handleGoogleResponse decodePayload JSON_stringify (h' ++ 46 :: p ++ 46 :: s') now w
     = handleGoogleResponse decodePayload JSON_stringify (h ++ 46 :: p ++ 46 :: s) now w).
Proof.
  intros Hh Hp. cbv zeta.
  assert (Hseg : forall (h0 s0 : jsstring), 46 ∉ h0 ->
            decodeCredential decodePayload (h0 ++ 46 :: p ++ 46 :: s0)
            = decodePayload (replace_all 95 47 (replace_all 45 43 p))).
  { intros h0 s0 Hh0. unfold decodeCredential.
    rewrite (split_first 46 h0 _ Hh0), (split_first 46 p _ Hp). reflexivity. }
  split; [apply Hseg; exact Hh|].
  split.
  { unfold decodeCredential.
    rewrite (split_first 46 h _ Hh), (split_no_sep 46 p Hp). reflexivity. }
  split; [apply replace_all_keeps; [discriminate|apply replace_all_gone; discriminate]|].
  split; [apply replace_all_gone; discriminate|].
  split; [unfold replace_all; rewrite !length_map; reflexivity|].
  intros h' s' now w Hh'.
  unfold handleGoogleResponse, googleTry.
  rewrite (Hseg h' s' Hh'), (Hseg h s Hh). reflexivity.
Qed.

(** A credential whose payload decodes signs the user in with the name,
    email and picture of the payload, unverified: the profile is written to
    exactly one of the two stores, the other is left as it is, the modal is
    closed, the spinner is off and no error is shown. *)
Theorem google_sign_in_sets_user (credential : jsstring) (now : N) (w : World)
    (payload : Payload) :
  decodeCredential decodePayload credential = Some payload ->
  exists w' u,
    handleGoogleResponse decodePayload JSON_stringify credential now w = Normal w' /\
    App.user (parent w') = Some u /\
    name u = payload_name payload /\ email u = payload_email payload /\
    avatar u = payload_picture payload /\ joinedDate u = now /\
    ((localStorage w' = <[securelens_user := JSON_stringify u]> (localStorage w) /\
      sessionStorage w' = sessionStorage w) \/
     (sessionStorage w' = <[securelens_user := JSON_stringify u]> (sessionStorage w) /\
      localStorage w' = localStorage w)) /\
    App.isLoginOpen (parent w') = false /\
    loading (modal w') = false /\ banner true (modal w') = None.
Proof.
  intros Hd. unfold handleGoogleResponse, try_catch, try_catch_finally, googleTry.
  rewrite Hd. destruct w as [ls ss p [i l sp r e]]. simpl.
  destruct r; simpl; eexists _, _; (split; [reflexivity|]);
    (split; [reflexivity|]); repeat (split; [reflexivity|]).
  - split; [left; split; reflexivity|]. repeat split.
  - split; [right; split; reflexivity|]. repeat split.
Qed.

End Credential.

Lemma credential_payload_only_witness :
  decodeCredential LoginFacts.any_payload (lit "head.pay-load_x.sig")
  = LoginFacts.any_payload (lit "pay+load/x") /\
  handleGoogleResponse LoginFacts.any_payload LoginFacts.print_name
    (lit "forged.pay-load_x.") 1700000000000 LoginFacts.fresh
  = handleGoogleResponse LoginFacts.any_payload LoginFacts.print_name
      (lit "head.pay-load_x.sig") 1700000000000 LoginFacts.fresh.
Proof.
  pose proof (credential_payload_only LoginFacts.any_payload LoginFacts.print_name
                (lit "head") (lit "pay-load_x") (lit "sig")) as H.
  destruct H as (H1 & _ & _ & _ & _ & H6).
  - apply (bool_decide_unpack _). vm_compute. exact I.
  - apply (bool_decide_unpack _). vm_compute. exact I.
  - split; [exact H1|].
    apply (H6 (lit "forged") [] 1700000000000 LoginFacts.fresh).
    apply (bool_decide_unpack _). vm_compute. exact I.
Defined.

Lemma google_sign_in_sets_user_witness :
  exists w' u,
    handleGoogleResponse LoginFacts.any_payload LoginFacts.print_name
      (lit "head.pay-load_x.sig") 1700000000000 LoginFacts.fresh = Normal w' /\
    App.user (parent w') = Some u /\ name u = Some (lit "pay+load/x").
Proof.
  destruct (google_sign_in_sets_user LoginFacts.any_payload LoginFacts.print_name
              (lit "head.pay-load_x.sig") 1700000000000 LoginFacts.fresh
              {| payload_name := Some (lit "pay+load/x"); payload_email := None;
                 payload_picture := None |} eq_refl)
    as (w' & u & H1 & H2 & H3 & _).
  exists w', u. split; [exact H1|]. split; [exact H2|exact H3].
Defined.

End SignInFacts.

(** ** Conversations *)

Module ConversationFacts.

Import Chat JSFacts ChatFacts.

(** *** What [trim] leaves *)

(** No white space in front. *)
Definition tidy (s : jsstring) : Prop :=
  match s with [] => True | c :: _ => isWhiteSpace c = false end.

Lemma tidy_trimStart s : tidy (trimStart s).
Proof.
  induction s as [|c s IH]; simpl; [exact I|].
  destruct (isWhiteSpace c) eqn:Hc; [exact IH|exact Hc].
Qed.

Lemma trimStart_tidy s : tidy s -> trimStart s = s.
Proof. destruct s as [|c s]; simpl; [reflexivity|]. intros ->. reflexivity. Qed.

Lemma trimEnd_prefix s : exists q, s = trimEnd s ++ q /\ blank q = true.
Proof.
  destruct (trimStart_suffix (rev s)) as (p & Hp & Hb).
  exists (rev p). split; [|rewrite blank_rev; exact Hb].
  unfold trimEnd. rewrite <- rev_app_distr, <- Hp, rev_involutive. reflexivity.
Qed.

Lemma tidy_trimEnd s : tidy s -> tidy (trimEnd s).
Proof.
  intros Hs. destruct (trimEnd_prefix s) as (q & Hq & _).
  destruct (trimEnd s) as [|c t]; [exact I|].
  rewrite Hq in Hs. exact Hs.
Qed.

Lemma tidy_rev_trimEnd s : tidy (rev (trimEnd s)).
Proof. unfold trimEnd. rewrite rev_involutive. apply tidy_trimStart. Qed.

Lemma trimEnd_trimEnd s : trimEnd (trimEnd s) = trimEnd s.
Proof.
  unfold trimEnd. rewrite rev_involutive.
  rewrite (trimStart_tidy (trimStart (rev s))) by apply tidy_trimStart. reflexivity.
Qed.

Lemma tidy_trim s : tidy (trim s) /\ tidy (rev (trim s)).
Proof.
  unfold trim. split; [apply tidy_trimEnd, tidy_trimStart|apply tidy_rev_trimEnd].
Qed.

Lemma trim_trim s : trim (trim s) = trim s.
Proof.
  unfold trim at 1. rewrite (trimStart_tidy (trim s)) by apply tidy_trim.
  unfold trim. apply trimEnd_trimEnd.
Qed.

(** The trimmed text is the input without a blank prefix and a blank
    suffix. *)
Lemma trim_infix s :
  exists p q, s = p ++ trim s ++ q /\ blank p = true /\ blank q = true.
Proof.
  destruct (trimStart_suffix s) as (p & Hp & Hbp).
  destruct (trimEnd_prefix (trimStart s)) as (q & Hq & Hbq).
  exists p, q. split; [|split; assumption].
  unfold trim. rewrite <- Hq. exact Hp.
Qed.

(** *** The shape of a conversation *)

(** A user turn as [handleSend] stores it. *)
Definition clean (m : Message) : Prop :=
  role m = user ->
  text m <> [] /\ trim (text m) = text m /\ tidy (text m) /\ tidy (rev (text m)).

Definition opens_with_model (ms : list Message) : Prop :=
  exists m rest, ms = m :: rest /\ role m = model.

Definition shaped (st : ChatState) : Prop :=
  opens_with_model (messages st) /\ Forall clean (messages st).

Lemma clean_model t : clean (mkMessage model t).
Proof. intros H. discriminate H. Qed.

Lemma clean_greeting r : clean (greeting r).
Proof. destruct r; apply clean_model. Qed.

Lemma shaped_append st m :
  shaped st -> clean m -> shaped (setMessages (fun prev => prev ++ [m]) st).
Proof.
  intros [(m0 & rest & Hm & Hr) Hc] Hcm. split.
  - exists m0, (rest ++ [m]). simpl. rewrite Hm. split; [reflexivity|exact Hr].
  - simpl. apply Forall_app. split; [exact Hc|]. constructor; [exact Hcm|constructor].
Qed.

Lemma shaped_flags st st' :
  messages st' = messages st -> shaped st -> shaped st'.
Proof. unfold shaped. intros ->. tauto. Qed.

Lemma shaped_reset r st : shaped (resetEffect r st).
Proof.
  split.
  - exists (greeting r), []. split; [reflexivity|]. destruct r; reflexivity.
  - simpl. constructor; [apply clean_greeting|constructor].
Qed.

Lemma shaped_handleSend_call r t st :
  shaped st -> shaped (fst (handleSend_call r t st)).
Proof.
  intros Hs. unfold handleSend_call.
  destruct (negb (truthy_str (trim t)) || isLoading st) eqn:Hg; [exact Hs|].
  simpl. apply orb_false_iff in Hg as [Ht _]. apply negb_false_iff in Ht.
  apply (shaped_append (setIsLoading true (setInput [] st))).
  - exact (shaped_flags st _ eq_refl Hs).
  - intros _. simpl. split; [destruct (trim t); [discriminate|congruence]|].
    split; [apply trim_trim|apply tidy_trim].
Qed.

Lemma shaped_handleSend_resume response st :
  shaped st -> shaped (completed (handleSend_resume response st)).
Proof.
  intros Hs. destruct response as [reply|]; simpl.
  - apply (shaped_flags (setMessages (fun prev => prev ++ [mkMessage model reply]) st));
      [reflexivity|]. apply shaped_append; [exact Hs|apply clean_model].
  - apply (shaped_flags (setMessages (fun prev => prev ++ [mkMessage model fallbackText]) st));
      [reflexivity|]. apply shaped_append; [exact Hs|apply clean_model].
Qed.

Lemma shaped_handleFeedback index type st :
  shaped st -> shaped (handleFeedback index type st).
Proof.
  intros [(m0 & rest & Hm & Hr) Hc]. split.
  - pose proof (lookup_handleFeedback index type st 0) as H0.
    rewrite Hm in H0.
    destruct (messages (handleFeedback index type st)) as [|m1 rest1];
      [discriminate H0|].
    exists m1, rest1. split; [reflexivity|].
    cbn in H0. injection H0 as ->.
    destruct index; exact Hr.
  - apply Forall_lookup. intros j m' Hm'. rewrite lookup_handleFeedback in Hm'.
    destruct (messages st !! j) as [m|] eqn:Hj; [|discriminate].
    simpl in Hm'. injection Hm' as <-.
    pose proof (proj1 (Forall_lookup _ _) Hc j m Hj) as Hcm.
    destruct (Z.eqb (Z.of_nat j) index); exact Hcm.
Qed.

Lemma shaped_rerender prev next st : shaped st -> shaped (rerender prev next st).
Proof.
  intros Hs. unfold rerender. destruct (same_result prev next); [exact Hs|].
  apply shaped_reset.
Qed.

Lemma shaped_chat_step w e : shaped (chat w) -> shaped (chat (chat_step w e)).
Proof.
  intros Hs. destruct e as [t|r|i t|r]; simpl.
  - pose proof (shaped_handleSend_call (props w) t (chat w) Hs) as H'.
    destruct (handleSend_call (props w) t (chat w)) as [st rq]. exact H'.
  - apply shaped_handleSend_resume. exact Hs.
  - apply shaped_handleFeedback. exact Hs.
  - apply shaped_rerender. exact Hs.
Qed.

(** In every reachable state of the widget the conversation is not empty
    and opens with a model turn, and every user turn is a non-empty text
    that [trim] leaves as it is, with no white space at either end. *)
Theorem conversation_shape (analysisResult : option AnalysisResult)
    (es : list ChatEvent) :
  let ms := messages (chat (chat_run analysisResult es)) in
  (exists m rest, ms = m :: rest /\ role m = model) /\
  (forall m, m ∈ ms -> role m = user ->
     text m <> [] /\ trim (text m) = text m /\ blank (text m) = false /\
     tidy (text m) /\ tidy (rev (text m))).
Proof.
  cbv zeta.
  assert (Hs : shaped (chat (chat_run analysisResult es))).
  { unfold chat_run. generalize (shaped_reset analysisResult initial).
    change (resetEffect analysisResult initial) with (chat (chat_mounted analysisResult)).
    generalize (chat_mounted analysisResult).
    induction es as [|e es IH]; intros w Hw; simpl; [exact Hw|].
    apply IH. apply shaped_chat_step. exact Hw. }
  destruct Hs as [Ho Hc]. split; [exact Ho|].
  intros m Hin Hu.
  destruct (proj1 (Forall_forall _ _) Hc m Hin Hu) as (Hne & Ht & Hl & Hr).
  split; [exact Hne|]. split; [exact Ht|]. split; [|split; assumption].
  destruct (blank (text m)) eqn:Hb; [|reflexivity].
  apply trim_nil_iff in Hb. congruence.
Qed.

Lemma conversation_shape_witness :
  text (mkMessage user (lit "is this a scam?")) <> [] /\
  trim (text (mkMessage user (lit "is this a scam?")))
  = text (mkMessage user (lit "is this a scam?")).
Proof.
  destruct (proj2 (conversation_shape None [Send (lit "  is this a scam? "); Settle Rejected])
              (mkMessage user (lit "is this a scam?"))) as (H1 & H2 & _).
  - apply list_elem_of_In. vm_compute. right. left. reflexivity.
  - reflexivity.
  - split; [exact H1|exact H2].
Defined.

(** *** One reply in flight *)

(** The sessions of the widget, with the number of gateway promises that
    have not settled yet: a promise settles only if it is pending. *)
Inductive session : ChatWorld -> nat -> Prop :=
| session_mount (analysisResult : option AnalysisResult) :
    session (chat_mounted analysisResult) 0
| session_send (w : ChatWorld) (pending : nat) (textToSend : jsstring) :
    session w pending ->
    session (chat_step w (Send textToSend))
      (match snd (handleSend_call (props w) textToSend (chat w)) with
       | Some _ => S pending
       | None => pending
       end)
| session_settle (w : ChatWorld) (pending : nat) (response : settled jsstring) :
    session w (S pending) ->
    session (chat_step w (Settle response)) pending
| session_feedback (w : ChatWorld) (pending : nat) (index : Z) (type : FeedbackType) :
    session w pending ->
    session (chat_step w (Feedback index type)) pending
| session_props (w : ChatWorld) (pending : nat) (analysisResult : option AnalysisResult) :
    session w pending ->
    session (chat_step w (Props analysisResult)) pending.

Lemma chat_step_send w t :
  chat (chat_step w (Send t)) = fst (handleSend_call (props w) t (chat w)).
Proof. simpl. destruct (handleSend_call (props w) t (chat w)); reflexivity. Qed.

Lemma isLoading_send r t st :
  isLoading (fst (handleSend_call r t st)) =
  match snd (handleSend_call r t st) with Some _ => true | None => isLoading st end.
Proof.
  unfold handleSend_call.
  destruct (negb (truthy_str (trim t)) || isLoading st); reflexivity.
Qed.

Lemma send_while_loading r t st :
  isLoading st = true -> snd (handleSend_call r t st) = None.
Proof.
  intros Hl. unfold handleSend_call. rewrite Hl, orb_true_r. reflexivity.
Qed.

Lemma isLoading_rerender prev next st : isLoading (rerender prev next st) = isLoading st.
Proof. unfold rerender. destruct (same_result prev next); reflexivity. Qed.

(** At most one gateway call is in flight in any session of the widget, and
    the loading flag is set exactly while one is; a send in that time makes
    no call.  Feedback and a change of the analysis result do not touch the
    flag. *)
Theorem single_reply_in_flight (w : ChatWorld) (pending : nat) :
  session w pending ->
  (pending <= 1)%nat /\
  (isLoading (chat w) = true <-> pending = 1%nat) /\
  (pending = 1%nat ->
   forall textToSend, gateway (chat_step w (Send textToSend)) = gateway w).
Proof.
  intros Hs.
  assert (H : (pending <= 1)%nat /\ (isLoading (chat w) = true <-> pending = 1%nat)).
  { induction Hs as [r|w p t Hs [Hp Hl]|w p r Hs [Hp Hl]|w p i ty Hs IH|w p r Hs IH].
    - split; [lia|]. simpl. split; [discriminate|lia].
    - rewrite chat_step_send, isLoading_send.
      destruct (snd (handleSend_call (props w) t (chat w))) as [rq|] eqn:Hrq;
        [|split; assumption].
      destruct (isLoading (chat w)) eqn:Hld.
      + rewrite (send_while_loading (props w) t (chat w) Hld) in Hrq. discriminate.
      + destruct p as [|p]; [split; [lia|tauto]|].
        assert (p = 0%nat) as -> by lia.
        destruct Hl as [_ Hl]. specialize (Hl eq_refl). discriminate.
    - assert (p = 0%nat) as -> by lia. split; [lia|].
      destruct r; simpl; split; intros H; [discriminate|lia|discriminate|lia].
    - exact IH.
    - simpl. rewrite isLoading_rerender. exact IH. }
  destruct H as [Hp Hl]. split; [exact Hp|]. split; [exact Hl|].
  intros H1 t. apply Hl in H1. simpl.
  pose proof (send_while_loading (props w) t (chat w) H1) as Hn.
  destruct (handleSend_call (props w) t (chat w)) as [st rq]. simpl in *.
  subst rq. apply app_nil_r.
Qed.

Lemma single_reply_in_flight_witness :
  isLoading (chat (chat_run None [Send (lit "is this a scam?")])) = true /\
  gateway (chat_step (chat_run None [Send (lit "is this a scam?")]) (Send (lit "hello?")))
  = gateway (chat_run None [Send (lit "is this a scam?")]).
Proof.
  pose proof (single_reply_in_flight (chat_run None [Send (lit "is this a scam?")]) 1
                (session_send _ _ (lit "is this a scam?") (session_mount None)))
    as (_ & Hl & Hg).
  split; [apply Hl; reflexivity|apply Hg; reflexivity].
Defined.

(** *** A send and its reply *)

(** What the gateway is given: the turns of the conversation without their
    feedback flags. *)
Definition transcript (st : ChatState) : list (Role * jsstring) :=
  map (fun m => (role m, text m)) (messages st).

(** A send that is taken and answered: the gateway gets the trimmed text, the
    turns before it (the new turn is not among them) and the current result;
    the input box is emptied; the conversation grows by the user turn and
    the reply as the gateway gave it, and the loading flag is cleared. *)
Theorem answered_send (analysisResult : option AnalysisResult)
    (textToSend reply : jsstring) (st : ChatState) :
  blank textToSend = false -> isLoading st = false ->
  exists (st1 st2 : ChatState) (rq : ChatRequest),
    handleSend_call analysisResult textToSend st = (st1, Some rq) /\
    newText rq = trim textToSend /\
    conversationHistory rq = transcript st /\
    length (conversationHistory rq) = length (messages st) /\
    context rq = analysisResult /\
    input st1 = [] /\ isLoading st1 = true /\
    handleSend_resume (Fulfilled reply) st1 = Normal st2 /\
    messages st2 =
      messages st ++ [mkMessage user (trim textToSend); mkMessage model reply] /\
    transcript st2 = transcript st ++ [(user, trim textToSend); (model, reply)] /\
    isLoading st2 = false /\ input st2 = [].
Proof.
  intros Hb Hl. eexists _, _, _.
  split; [apply handleSend_taken; assumption|].
  split; [reflexivity|]. split; [reflexivity|].
  split; [simpl; apply length_map|].
  split; [reflexivity|]. split; [reflexivity|]. split; [reflexivity|].
  split; [reflexivity|].
  assert (Hm : (messages st ++ [mkMessage user (trim textToSend)]) ++ [mkMessage model reply]
               = messages st ++ [mkMessage user (trim textToSend); mkMessage model reply]).
  { rewrite <- app_assoc. reflexivity. }
  split; [exact Hm|].
  split; [|split; reflexivity].
  unfold transcript. simpl. rewrite Hm, map_app. reflexivity.
Qed.

Lemma answered_send_witness :
  exists (st1 st2 : ChatState) (rq : ChatRequest),
    handleSend_call None (lit " Common scams? ") (mount None) = (st1, Some rq) /\
    newText rq = lit "Common scams?" /\
    handleSend_resume (Fulfilled (lit "Phishing.")) st1 = Normal st2 /\
    messages st2 = [greeting None; mkMessage user (lit "Common scams?");
                    mkMessage model (lit "Phishing.")].
Proof.
  destruct (answered_send None (lit " Common scams? ") (lit "Phishing.") (mount None)
              eq_refl eq_refl)
    as (st1 & st2 & rq & H1 & H2 & _ & _ & _ & _ & _ & H8 & H9 & _).
  exists st1, st2, rq. split; [exact H1|]. split; [exact H2|].
  split; [exact H8|exact H9].
Defined.

(** A reply that arrives after the analysis result has changed lands in the
    new conversation: the widget then shows the greeting for the new result
    followed by the reply (or the fallback), without the question that was
    asked, and the call had been made with the old result as context. *)
Theorem late_reply_after_reset (textToSend : jsstring)
    (next : option AnalysisResult) (response : settled jsstring) (w : ChatWorld) :
  blank textToSend = false -> isLoading (chat w) = false ->
  same_result (props w) next = false ->
  let w1 := chat_step w (Send textToSend) in
  let w3 := chat_step (chat_step w1 (Props next)) (Settle response) in
  (exists rq, gateway w1 = gateway w ++ [rq] /\ context rq = props w /\
              newText rq = trim textToSend) /\
  messages (chat w3) =
    [greeting next;
     mkMessage model (match response with
                      | Fulfilled reply => reply
                      | Rejected => fallbackText
                      end)] /\
  (mkMessage user (trim textToSend) ∉ messages (chat w3)) /\
  isLoading (chat w3) = false /\ gateway w3 = gateway w1.
Proof.
  intros Hb Hl Hne. cbv zeta. cbn [chat_step].
  rewrite (handleSend_taken (props w) textToSend (chat w) Hb Hl).
  cbn [props chat gateway]. unfold rerender. rewrite Hne.
  split; [eexists; split; [reflexivity|split; reflexivity]|].
  assert (Hms : messages (completed (handleSend_resume response
            (resetEffect next
               (setMessages (fun prev => prev ++ [mkMessage user (trim textToSend)])
                  (setIsLoading true (setInput [] (chat w))))))) =
          [greeting next;
           mkMessage model (match response with
                            | Fulfilled reply => reply
                            | Rejected => fallbackText
                            end)]).
  { destruct response; reflexivity. }
  split; [exact Hms|]. split.
  - rewrite Hms. rewrite !not_elem_of_cons. split; [|split; [|apply not_elem_of_nil]].
    + destruct next; discriminate.
    + discriminate.
  - split; [destruct response; reflexivity|reflexivity].
Qed.

Lemma late_reply_after_reset_witness :
  messages (chat (chat_run None [Send (lit "is this a scam?");
                                 Props (Some high_risk);
                                 Settle (Fulfilled (lit "Probably."))]))
  = [greeting (Some high_risk); mkMessage model (lit "Probably.")].
Proof.
  apply (proj1 (proj2 (late_reply_after_reset (lit "is this a scam?") (Some high_risk)
                         (Fulfilled (lit "Probably.")) (chat_run None [])
                         eq_refl eq_refl eq_refl))).
Defined.

(** *** Feedback *)

Lemma chatState_ext (st st' : ChatState) :
  isOpen st = isOpen st' -> input st = input st' -> isLoading st = isLoading st' ->
  messages st = messages st' -> st = st'.
Proof.
  destruct st, st'. simpl. intros -> -> -> ->. reflexivity.
Qed.

Lemma marked_switch type m :
  flag type (marked (opposite type) (marked type m)) = false /\
  flag (opposite type) (marked (opposite type) (marked type m)) = true.
Proof. destruct type; split; reflexivity. Qed.

(** Feedback composes per message: switching from one kind to the other on a
    message always ends with exactly the second kind set, whatever was set
    before; feedback on two different messages can be given in either
    order. *)
Theorem feedback_composes (st : ChatState) :
  (forall index type (j : nat) m,
     messages st !! j = Some m -> Z.of_nat j = index ->
     exists m2,
       messages (handleFeedback index (opposite type) (handleFeedback index type st)) !! j
       = Some m2 /\
       flag (opposite type) m2 = true /\ flag type m2 = false /\
       role m2 = role m /\ text m2 = text m) /\
  (forall i j t u, i <> j ->
     handleFeedback i t (handleFeedback j u st) = handleFeedback j u (handleFeedback i t st)).
Proof.
  split.
  - intros index type j m Hm Hj.
    exists (marked (opposite type) (marked type m)). split.
    + apply lookup_handleFeedback_at; [|exact Hj].
      apply lookup_handleFeedback_at; assumption.
    + destruct (marked_switch type m) as [H1 H2].
      split; [exact H2|]. split; [exact H1|]. split; reflexivity.
  - intros i j t u Hij. apply chatState_ext; try reflexivity.
    apply list_eq. intros k. rewrite !lookup_handleFeedback.
    destruct (messages st !! k) as [m|]; [|reflexivity]. simpl. f_equal.
    destruct (Z.eqb_spec (Z.of_nat k) i) as [Hi|Hi],
             (Z.eqb_spec (Z.of_nat k) j) as [Hj|Hj]; try reflexivity.
    congruence.
Qed.

Lemma feedback_composes_witness :
  (exists m2,
     messages (handleFeedback 2 dislike (handleFeedback 2 like sample_chat)) !! 2%nat
     = Some m2 /\ flag dislike m2 = true /\ flag like m2 = false) /\
  handleFeedback 0 like (handleFeedback 2 dislike sample_chat)
  = handleFeedback 2 dislike (handleFeedback 0 like sample_chat).
Proof.
  destruct (feedback_composes sample_chat) as [Hs Hc]. split.
  - destruct (Hs 2%Z like 2%nat (mkMessage model fallbackText) eq_refl eq_refl)
      as (m2 & H1 & H2 & H3 & _).
    exists m2. split; [exact H1|]. split; [exact H2|exact H3].
  - apply Hc. discriminate.
Defined.

Lemma transcript_handleFeedback index type st :
  transcript (handleFeedback index type st) = transcript st.
Proof.
  unfold transcript. apply list_eq. intros k.
  rewrite !list_lookup_fmap, lookup_handleFeedback.
  destruct (messages st !! k) as [m|]; [|reflexivity]. simpl.
  destruct (Z.eqb (Z.of_nat k) index); reflexivity.
Qed.

(** Feedback stays in the widget: it changes no role and no text, so the
    gateway call of a later send is the same with and without it, and
    whether the send is taken does not depend on it. *)
Theorem feedback_not_sent (index : Z) (type : FeedbackType)
    (analysisResult : option AnalysisResult) (textToSend : jsstring) (st : ChatState) :
  transcript (handleFeedback index type st) = transcript st /\
  snd (handleSend_call analysisResult textToSend (handleFeedback index type st))
  = snd (handleSend_call analysisResult textToSend st).
Proof.
  split; [apply transcript_handleFeedback|].
  unfold handleSend_call.
  change (isLoading (handleFeedback index type st)) with (isLoading st).
  destruct (negb (truthy_str (trim textToSend)) || isLoading st); [reflexivity|].
  simpl. f_equal. f_equal. apply (transcript_handleFeedback index type st).
Qed.

(** *** A send that fails *)

(** What can happen while a call is pending: no promise settles (there is
    none other than the pending one). *)
Definition unsettled (mid : list ChatEvent) : bool :=
  forallb (fun e => match e with Settle _ => false | _ => true end) mid.

(** ... and, moreover, no render brings a different analysis result. *)
Fixpoint undisturbed (p : option AnalysisResult) (mid : list ChatEvent) : bool :=
  match mid with
  | [] => true
  | Send _ :: mid' => undisturbed p mid'
  | Feedback _ _ :: mid' => undisturbed p mid'
  | Props r :: mid' => same_result p r && undisturbed r mid'
  | Settle _ :: _ => false
  end.

Lemma chat_step_send_loading w t :
  isLoading (chat w) = true -> chat_step w (Send t) = w.
Proof.
  intros Hl. simpl. unfold handleSend_call. rewrite Hl, orb_true_r.
  rewrite app_nil_r. destruct w; reflexivity.
Qed.

Lemma pending_unsettled mid : forall w,
  isLoading (chat w) = true -> unsettled mid = true ->
  isLoading (chat (fold_left chat_step mid w)) = true /\
  gateway (fold_left chat_step mid w) = gateway w.
Proof.
  induction mid as [|e mid IH]; intros w Hl Hu; [split; [exact Hl|reflexivity]|].
  simpl in Hu. apply andb_true_iff in Hu as [He Hu].
  destruct e as [t|r|i ty|r]; try discriminate He; cbn [fold_left].
  - rewrite (chat_step_send_loading w t Hl). apply IH; assumption.
  - destruct (IH (chat_step w (Feedback i ty)) Hl Hu) as [H1 H2].
    split; [exact H1|exact H2].
  - assert (Hl' : isLoading (chat (chat_step w (Props r))) = true)
      by (simpl; rewrite isLoading_rerender; exact Hl).
    destruct (IH (chat_step w (Props r)) Hl' Hu) as [H1 H2].
    split; [exact H1|exact H2].
Qed.

Lemma pending_undisturbed mid : forall w,
  isLoading (chat w) = true -> undisturbed (props w) mid = true ->
  transcript (chat (fold_left chat_step mid w)) = transcript (chat w).
Proof.
  induction mid as [|e mid IH]; intros w Hl Hu; [reflexivity|].
  destruct e as [t|r|i ty|r]; simpl in Hu; try discriminate Hu; cbn [fold_left].
  - rewrite (chat_step_send_loading w t Hl). apply IH; assumption.
  - rewrite (IH (chat_step w (Feedback i ty)) Hl Hu). simpl.
    apply transcript_handleFeedback.
  - apply andb_true_iff in Hu as [Hs Hu].
    assert (Hst : chat (chat_step w (Props r)) = chat w)
      by (simpl; unfold rerender; rewrite Hs; reflexivity).
    rewrite (IH (chat_step w (Props r))); [rewrite Hst; reflexivity| |exact Hu].
    rewrite Hst. exact Hl.
Qed.

(** C2, as the code has it: a send whose gateway call fails makes exactly
    one gateway call and appends the user turn at once; nothing that happens
    while the call is pending makes another call; when the call fails,
    exactly one fallback model turn is appended to the conversation as it
    stands then, the in-flight flag is cleared and the handler ends normally.
    If the analysis result does not change in between, the conversation has
    grown by exactly two turns, the user turn and the fallback turn: three
    turns after the first message of a session, which starts with the
    greeting. *)
Theorem failed_send_turns (textToSend : jsstring) (mid : list ChatEvent)
    (w : ChatWorld) :
  blank textToSend = false -> isLoading (chat w) = false ->
  unsettled mid = true ->
  let w1 := chat_step w (Send textToSend) in
  let w2 := fold_left chat_step mid w1 in
  let w3 := chat_step w2 (Settle Rejected) in
  (exists rq, gateway w1 = gateway w ++ [rq] /\ newText rq = trim textToSend) /\
  messages (chat w1) = messages (chat w) ++ [mkMessage user (trim textToSend)] /\
  gateway w3 = gateway w1 /\
  handleSend_resume Rejected (chat w2) = Normal (chat w3) /\
  messages (chat w3) = messages (chat w2) ++ [mkMessage model fallbackText] /\
  isLoading (chat w3) = false /\
  (undisturbed (props w) mid = true ->
   transcript (chat w3)
   = transcript (chat w) ++ [(user, trim textToSend); (model, fallbackText)] /\
   length (messages (chat w3)) = (length (messages (chat w)) + 2)%nat /\
   (forall analysisResult,
      chat w = mount analysisResult -> length (messages (chat w3)) = 3%nat)) /\
  (mid = [] ->
   messages (chat w3)
   = messages (chat w) ++ [mkMessage user (trim textToSend);
                           mkMessage model fallbackText]) /\
  (forall later : ChatState,
     exists st3, handleSend_resume Rejected later = Normal st3 /\
                 messages st3 = messages later ++ [mkMessage model fallbackText] /\
                 isLoading st3 = false).
Proof.
  intros Hb Hl Hu. cbv zeta.
  set (w1 := chat_step w (Send textToSend)).
  assert (Hw1 : w1 = {| props := props w;
                        chat := setMessages
                                  (fun prev => prev ++ [mkMessage user (trim textToSend)])
                                  (setIsLoading true (setInput [] (chat w)));
                        gateway := gateway w ++
                          [{| conversationHistory := transcript (chat w);
                              newText := trim textToSend;
                              context := props w |}] |}).
  { unfold w1. cbn [chat_step].
    rewrite (handleSend_taken (props w) textToSend (chat w) Hb Hl). reflexivity. }
  assert (Hl1 : isLoading (chat w1) = true) by (rewrite Hw1; reflexivity).
  destruct (pending_unsettled mid w1 Hl1 Hu) as [Hl2 Hg2].
  set (w2 := fold_left chat_step mid w1) in *.
  split; [rewrite Hw1; eexists; split; reflexivity|].
  split; [rewrite Hw1; reflexivity|].
  split; [exact Hg2|].
  split; [reflexivity|]. split; [reflexivity|]. split; [reflexivity|].
  split.
  - intros Hd.
    assert (Ht : transcript (chat (chat_step w2 (Settle Rejected)))
                 = transcript (chat w) ++ [(user, trim textToSend); (model, fallbackText)]).
    { assert (Hp1 : props w1 = props w) by (rewrite Hw1; reflexivity).
      rewrite <- Hp1 in Hd.
      pose proof (pending_undisturbed mid w1 Hl1 Hd) as Ht2. fold w2 in Ht2.
      unfold transcript in *. cbn [chat_step chat completed handleSend_resume].
      simpl. rewrite map_app, Ht2, Hw1. simpl. rewrite map_app, <- app_assoc.
      reflexivity. }
    assert (Hlen : length (messages (chat (chat_step w2 (Settle Rejected))))
                   = (length (messages (chat w)) + 2)%nat).
    { apply (f_equal length) in Ht. unfold transcript in Ht.
      rewrite length_app, !length_map in Ht. exact Ht. }
    split; [exact Ht|]. split; [exact Hlen|].
    intros r Hm. rewrite Hlen, Hm. reflexivity.
  - split.
    + intros ->. unfold w2. simpl. rewrite Hw1. simpl. rewrite <- app_assoc.
      reflexivity.
    + intros later. eexists. split; [reflexivity|]. split; reflexivity.
Qed.

Lemma failed_send_turns_witness :
  let w3 := chat_run None [Send (lit "is this a scam?"); Feedback 0 like;
                           Send (lit "hello?"); Settle Rejected] in
  length (gateway w3) = 1%nat /\
  transcript (chat w3)
  = transcript (mount None) ++ [(user, lit "is this a scam?"); (model, fallbackText)] /\
  length (messages (chat w3)) = 3%nat.
Proof.
  pose proof (failed_send_turns (lit "is this a scam?")
                [Feedback 0 like; Send (lit "hello?")] (chat_run None [])
                eq_refl eq_refl eq_refl)
    as (_ & _ & Hg & _ & _ & _ & Hd & _).
  destruct (Hd eq_refl) as (Ht & _ & H3).
  cbv zeta. split; [|split].
  - change (length (gateway (fold_left chat_step
              [Feedback 0 like; Send (lit "hello?"); Settle Rejected]
              (chat_step (chat_run None []) (Send (lit "is this a scam?"))))) = 1%nat).
    cbn [fold_left]. cbn [fold_left] in Hg. rewrite Hg. reflexivity.
  - exact Ht.
  - exact (H3 None eq_refl).
Defined.

End ConversationFacts.
